(** * monarch-automation: the OpenClaw skill wrappers and the over-budget analyzer

    This development embeds the two Node.js wrappers of the repository

    - [skills/monarch-report/impl.js]        (module [MonarchReport])
    - [skills/monarch-transactions/impl.js]  (module [MonarchTransactions])

    and the budget-overage analyzer of [over_budget_report.py] (module
    [BudgetOverageAnalyzer]) and proves the properties the specification
    states about them.

    The wrappers are effectful: they read [process.env] and [process.argv],
    probe the file system with [fs.existsSync], and spawn subprocesses with
    [child_process.execSync].  They are embedded in a small exception monad
    that records every effect in a trace, over an explicit [World] that says
    how the environment answers. *)

From stdpp Require Import base gmap strings list.
From Stdlib Require Import ZArith Lia Ascii String DecimalString.
From Stdlib Require Import Sorting.Permutation Sorting.Sorted.

Local Open Scope string_scope.
Local Open Scope Z_scope.

(** ** JavaScript strings

    A JavaScript string is a sequence of code units; the model keeps the
    code units below 256, one [ascii] each. *)

Definition dquote : string := String "034"%char EmptyString.
Definition newline : string := String "010"%char EmptyString.

(** [WhiteSpace] and [LineTerminator] code units (TAB, LF, VT, FF, CR,
    SP and NBSP are the ones below 256): what [String.prototype.trim]
    strips. *)
Definition is_space (c : ascii) : bool :=
  let n := nat_of_ascii c in
  ((9 <=? n) && (n <=? 13) || (n =? 32) || (n =? 160))%nat.

Fixpoint trim_start (s : string) : string :=
  match s with
  | EmptyString => EmptyString
  | String c rest => if is_space c then trim_start rest else s
  end.

(** Drops the trailing white space: a character is kept when it is not a
    space or when something is kept after it. *)
Fixpoint trim_end (s : string) : string :=
  match s with
  | EmptyString => EmptyString
  | String c rest =>
      match trim_end rest with
      | EmptyString => if is_space c then EmptyString else String c EmptyString
      | kept => String c kept
      end
  end.

(** [s.trim()] *)
Definition trim (s : string) : string := trim_end (trim_start s).

(** [s.slice(0, n)] for [0 <= n]: the first [n] code units. *)
Definition slice0 (n : nat) (s : string) : string := String.substring 0 n s.

(** [s.includes(needle)] *)
Fixpoint includes (needle s : string) : bool :=
  String.prefix needle s ||
  match s with
  | EmptyString => false
  | String _ rest => includes needle rest
  end.

(** [parts.join(sep)] *)
Definition join (sep : string) (parts : list string) : string :=
  String.concat sep parts.

(** Decimal text of an integer, as a template literal prints it. *)
Definition string_of_Z (z : Z) : string :=
  NilZero.string_of_int (Z.to_int z).

(** A string is truthy when it is not empty. *)
Definition nonempty (s : string) : bool :=
  match s with EmptyString => false | String _ _ => true end.

(** ** JSON values

    What [JSON.parse] yields.  A number is an IEEE double: the finite
    ones are [mantissa * 2 ^ exponent], and [JSON.parse] also yields the
    infinities (on [1e999]).  An object keeps its members in insertion
    order, each key once. *)

#[local] Unset Elimination Schemes.

Inductive number : Type :=
| NFinite (mantissa exponent : Z)
| NInfinity (negative : bool).

Inductive value : Type :=
| JNull
| JBool (b : bool)
| JNumber (n : number)
| JString (s : string)
| JArray (items : list value)
| JObject (members : list (string * value)).

#[local] Set Elimination Schemes.

(** [ToBoolean]: what [if (v)] and [v || w] test. *)
Definition truthy (v : value) : bool :=
  match v with
  | JNull => false
  | JBool b => b
  | JNumber (NFinite m _) => negb (m =? 0)
  | JNumber (NInfinity _) => true
  | JString s => nonempty s
  | JArray _ => true
  | JObject _ => true
  end.

(** Own member of an object, by key. *)
Fixpoint member (key : string) (members : list (string * value)) : option value :=
  match members with
  | [] => None
  | (k, v) :: rest => if String.eqb k key then Some v else member key rest
  end.

Definition has_member (key : string) (members : list (string * value)) : bool :=
  match member key members with Some _ => true | None => false end.

(** The three outcomes of the property access [v.error]:
    a [TypeError] on [null], [undefined] where there is no such member
    (primitives, arrays and objects without the key), or the member. *)
Inductive access : Type :=
| AccessTypeError
| AccessUndefined
| AccessValue (v : value).

Definition get_error (v : value) : access :=
  match v with
  | JNull => AccessTypeError
  | JObject members =>
      match member "error" members with
      | Some e => AccessValue e
      | None => AccessUndefined
      end
  | _ => AccessUndefined
  end.

Section ToString.

(** [Number.prototype.toString] is a primitive of the JavaScript
    runtime that this development does not re-implement. *)
Variable Number_toString : number -> string.

(** [ToString], which [new Error(v)] applies to its argument; [None]
    is the [TypeError] of an object that shadows [toString] with a
    member (no JSON member is callable, and [valueOf] then yields no
    primitive).  An array is the [join] of its items, with [null] items
    empty. *)
Fixpoint ToString (v : value) : option string :=
  match v with
  | JNull => Some "null"
  | JBool true => Some "true"
  | JBool false => Some "false"
  | JNumber n => Some (Number_toString n)
  | JString s => Some s
  | JArray items =>
      let fix items_to_string (l : list value) : option (list string) :=
        match l with
        | [] => Some []
        | x :: rest =>
            match (match x with JNull => Some EmptyString | _ => ToString x end),
                  items_to_string rest with
            | Some sx, Some srest => Some (sx :: srest)
            | _, _ => None
            end
        end in
      match items_to_string items with
      | Some texts => Some (join "," texts)
      | None => None
      end
  | JObject members =>
      if has_member "toString" members then None else Some "[object Object]"
  end.

End ToString.

(** ** Effects: exceptions, the trace and the world *)

(** The options object handed to [execSync]. *)
Record ExecOptions : Type := {
  encoding : string;
  stdio : list string;
  timeout : option Z  (* milliseconds; [None] when the key is absent *)
}.

(** The error [execSync] throws when the child does not exit with
    status 0: [status] is [null] ([None]) when a signal killed the child,
    as on a timeout; [stdout] and [stderr] hold what the child wrote. *)
Record ChildFailure : Type := {
  status : option Z;
  signal : option string;
  stdout : option string;
  stderr : option string
}.

Inductive ExecResult : Type :=
| ExecOk (out : string)
| ExecFail (failure : ChildFailure).

(** Everything the wrappers can have thrown at them or throw:
    an [Error] built by [new Error(message)], with the [payload] property
    once it has been assigned; the [SyntaxError] of [JSON.parse]; a
    [TypeError]; the error of [execSync]. *)
Inductive Thrown : Type :=
| ErrorObject (message : string) (payload : option value)
| SyntaxError
| TypeError
| ChildProcessError (failure : ChildFailure).

(** [err.stdout], [err.stderr] and [err.payload]; [None] is [undefined]
    (or [null]). *)
Definition thrown_stdout (t : Thrown) : option string :=
  match t with ChildProcessError f => stdout f | _ => None end.

Definition thrown_stderr (t : Thrown) : option string :=
  match t with ChildProcessError f => stderr f | _ => None end.

Definition thrown_payload (t : Thrown) : option value :=
  match t with ErrorObject _ p => p | _ => None end.

(** The text of [err.status] inside a template literal. *)
Definition thrown_status_text (t : Thrown) : string :=
  match t with
  | ChildProcessError f =>
      match status f with
      | Some n => string_of_Z n
      | None => "null"
      end
  | _ => "undefined"
  end.

(** [if (x)] on a property that may be [undefined]. *)
Definition truthy_opt (o : option value) : bool :=
  match o with Some v => truthy v | None => false end.

(** [wrapped.payload = payload] *)
Definition set_payload (t : Thrown) (p : value) : Thrown :=
  match t with
  | ErrorObject msg _ => ErrorObject msg (Some p)
  | other => other
  end.

(** The observable effects, in the order they happen. *)
Inductive Event : Type :=
| EvExistsSync (path : string)
| EvExecSync (command : string) (options : ExecOptions).

(** What the wrapper does not decide: the runtime's [JSON.parse]
    ([None] is a [SyntaxError]) and number printing, the process
    environment and arguments, the resolved project root
    ([path.resolve(__dirname, "..", "..")]), and how the file system and
    the spawned commands answer.  A run checks no path and spawns no
    command twice, so an answer per path and per command is all it can
    observe. *)
Record World : Type := {
  JSON_parse : string -> option value;
  Number_toString : number -> string;
  env : gmap string string;
  argv : list string;
  PROJECT_ROOT : string;
  existsSync : string -> bool;
  execSync : string -> ExecOptions -> ExecResult
}.

Inductive Completion (A : Type) : Type :=
| Return (a : A)
| Throw (t : Thrown).

Arguments Return {A} a.
Arguments Throw {A} t.

(** A computation: its trace and how it completes. *)
Definition M (A : Type) : Type := (list Event * Completion A)%type.

Definition ret {A} (a : A) : M A := ([], Return a).

Definition throw {A} (t : Thrown) : M A := ([], Throw t).

Definition bind {A B} (m : M A) (k : A -> M B) : M B :=
  match m with
  | (tr, Return a) => let (tr', r) := k a in (tr ++ tr', r)%list
  | (tr, Throw t) => (tr, Throw t)
  end.

(** [try { m } catch (e) { handler e }] *)
Definition try_catch {A} (m : M A) (handler : Thrown -> M A) : M A :=
  match m with
  | (tr, Throw t) => let (tr', r) := handler t in (tr ++ tr', r)%list
  | done => done
  end.

Declare Scope js_scope.
Delimit Scope js_scope with js.
Notation "x <- m ;; k" := (bind m (fun x => k))
  (at level 100, m at next level, right associativity) : js_scope.
Notation "m ;;; k" := (bind m (fun _ => k))
  (at level 100, right associativity) : js_scope.

Definition trace {A} (m : M A) : list Event := fst m.
Definition completion {A} (m : M A) : Completion A := snd m.

Section Primitives.

Variable w : World.

Definition fs_existsSync (path : string) : M bool :=
  ([EvExistsSync path], Return (existsSync w path)).

Definition child_execSync (command : string) (options : ExecOptions) : M string :=
  ([EvExecSync command options],
   match execSync w command options with
   | ExecOk out => Return out
   | ExecFail f => Throw (ChildProcessError f)
   end).

Definition json_parse (text : string) : M value :=
  match JSON_parse w text with
  | Some v => ret v
  | None => throw SyntaxError
  end.

(** [payload.error], [undefined] being [None]. *)
Definition prop_error (payload : value) : M (option value) :=
  match get_error payload with
  | AccessTypeError => throw TypeError
  | AccessUndefined => ret None
  | AccessValue e => ret (Some e)
  end.

(** [new Error(v)] *)
Definition new_Error (v : value) : M Thrown :=
  match ToString (Number_toString w) v with
  | Some message => ret (ErrorObject message None)
  | None => throw TypeError
  end.

(** [process.env.NAME] and [process.argv[i]] *)
Definition process_env (name : string) : option string := env w !! name.
Definition process_argv (i : nat) : option string := argv w !! i.

End Primitives.

(** [a || b] where [a] may be [undefined]. *)
Definition or_value (a : option value) (b : value) : value :=
  match a with
  | Some v => if truthy v then v else b
  | None => b
  end.

(** [a || b] on strings that may be [undefined]: the first truthy one. *)
Definition or_string (a : option string) (b : string) : string :=
  match a with
  | Some s => if nonempty s then s else b
  | None => b
  end.

Definition or_else (a b : option string) : option string :=
  match a with
  | Some s => if nonempty s then a else b
  | None => b
  end.

(** [path.join(root, ...segments)] on POSIX, for a normalized [root]
    that does not end in a separator (so not the root directory itself)
    and plain segment names: the pieces with a slash between.  On
    Windows [path.join] puts backslashes instead. *)
Definition path_join (segments : list string) : string := join "/" segments.

Definition quoted (s : string) : string := dquote ++ s ++ dquote.

Definition pipe3 : list string := ["pipe"; "pipe"; "pipe"].

Local Open Scope js_scope.

(** Options of the [--version] probes: no [timeout] key. *)
Definition probe_options : ExecOptions :=
  {| encoding := "utf8"; stdio := pipe3; timeout := None |}.

(** Options of the script invocation: [timeout: 30_000]. *)
Definition script_options : ExecOptions :=
  {| encoding := "utf8"; stdio := pipe3; timeout := Some 30000 |}.

Definition default_message : string := "Script exited with non-zero status".

(** ** skills/monarch-report/impl.js *)

Module MonarchReport.
Section Wrapper.

Variable w : World.

Definition SCRIPT_PATH : string := path_join [PROJECT_ROOT w; "over_budget_report.py"].
Definition SESSION_PATH : string := path_join [PROJECT_ROOT w; "session.json"].

(** [process.env.THRESHOLD || process.argv[2] || "50"] *)
Definition threshold : string :=
  or_string (or_else (process_env w "THRESHOLD") (process_argv w 2)) "50".

Definition not_available : string :=
  "Python 3 is not available on PATH. " ++
  "Install Python 3 and ensure it is accessible as 'python3' or 'python'.".

(** The [for ... of] loop of [findPython] over the candidates left. *)
Fixpoint findPython_from (candidates : list string) : M string :=
  match candidates with
  | [] => throw (ErrorObject not_available None)
  | candidate :: rest =>
      found <- try_catch
                 (out <- child_execSync w (candidate ++ " --version") probe_options ;;
                  ret (includes "Python 3" out))
                 (fun _ => ret false) ;;
      if found then ret candidate else findPython_from rest
  end.

Definition findPython : M string := findPython_from ["python3"; "python"].

Definition command (python : string) : string :=
  join " " [python; quoted SCRIPT_PATH; "--json"; "--threshold"; threshold;
            "--session"; quoted SESSION_PATH].

Definition run : M value :=
  python <- findPython ;;
  out <- try_catch
           (child_execSync w (command python) script_options)
           (fun err =>
              let raw := trim (default EmptyString (thrown_stdout err)) in
              (if nonempty raw then
                 try_catch
                   (payload <- json_parse w raw ;;
                    e <- prop_error payload ;;
                    wrapped <- new_Error w (or_value e (JString default_message)) ;;
                    throw (set_payload wrapped payload))
                   (fun innerErr =>
                      if truthy_opt (thrown_payload innerErr)
                      then throw innerErr else ret tt)
               else ret tt) ;;;
              let err_text := trim (default EmptyString (thrown_stderr err)) in
              throw (ErrorObject
                       ("over_budget_report.py failed (exit " ++ thrown_status_text err
                        ++ ")." ++ newline
                        ++ or_string (Some err_text) "No stderr output.")
                       None)) ;;
  try_catch
    (json_parse w (trim out))
    (fun _ =>
       throw (ErrorObject
                ("Failed to parse JSON from over_budget_report.py." ++ newline
                 ++ "Raw output: " ++ slice0 500 out)
                None)).

End Wrapper.
End MonarchReport.

(** ** skills/monarch-transactions/impl.js *)

Module MonarchTransactions.
Section Wrapper.

Variable w : World.

Definition SCRIPT_PATH : string := path_join [PROJECT_ROOT w; "category_transactions.py"].
Definition SESSION_PATH : string := path_join [PROJECT_ROOT w; "session.json"].

(** [process.env.CATEGORY || process.argv[2] || ""] *)
Definition category : string :=
  or_string (or_else (process_env w "CATEGORY") (process_argv w 2)) EmptyString.

(** [process.env.MONTH || process.argv[3] || ""] *)
Definition month : string :=
  or_string (or_else (process_env w "MONTH") (process_argv w 3)) EmptyString.

Definition venvCandidates : list string :=
  [path_join [PROJECT_ROOT w; ".venv"; "bin"; "python"];
   path_join [PROJECT_ROOT w; ".venv"; "Scripts"; "python"]].

Definition not_found : string :=
  "Python 3 not found. Create a venv at .venv/ or install Python 3 on PATH.".

Definition no_category : string :=
  "No category specified. Pass it via the CATEGORY env var or as argv[2]." ++ newline ++
  "Example: node impl.js " ++ quoted "Dining Out".

(** The second loop of [findPython]: the system Python 3. *)
Fixpoint findPython_system (candidates : list string) : M string :=
  match candidates with
  | [] => throw (ErrorObject not_found None)
  | candidate :: rest =>
      found <- try_catch
                 (out <- child_execSync w (candidate ++ " --version") probe_options ;;
                  ret (includes "Python 3" out))
                 (fun _ => ret false) ;;
      if found then ret candidate else findPython_system rest
  end.

(** The first loop of [findPython]: the project venv. *)
Fixpoint findPython_venv (candidates : list string) : M string :=
  match candidates with
  | [] => findPython_system ["python3"; "python"]
  | candidate :: rest =>
      present <- fs_existsSync w candidate ;;
      if present then ret candidate else findPython_venv rest
  end.

Definition findPython : M string := findPython_venv venvCandidates.

Definition command (python : string) : string :=
  let parts := [python; quoted SCRIPT_PATH; "--json";
                "--category"; quoted category;
                "--session"; quoted SESSION_PATH] in
  let parts := if nonempty month then (parts ++ ["--month"; month])%list else parts in
  join " " parts.

Definition run : M value :=
  if negb (nonempty category) then throw (ErrorObject no_category None) else
  python <- findPython ;;
  out <- try_catch
           (child_execSync w (command python) script_options)
           (fun err =>
              let raw := trim (default EmptyString (thrown_stdout err)) in
              (if nonempty raw then
                 try_catch
                   (payload <- json_parse w raw ;;
                    e <- prop_error payload ;;
                    wrapped <- new_Error w (or_value e (JString default_message)) ;;
                    throw (set_payload wrapped payload))
                   (fun innerErr =>
                      if truthy_opt (thrown_payload innerErr)
                      then throw innerErr else ret tt)
               else ret tt) ;;;
              let err_text := trim (default EmptyString (thrown_stderr err)) in
              throw (ErrorObject
                       ("category_transactions.py failed (exit " ++ thrown_status_text err
                        ++ ")." ++ newline
                        ++ or_string (Some err_text) "No stderr output.")
                       None)) ;;
  try_catch
    (json_parse w (trim out))
    (fun _ =>
       throw (ErrorObject
                ("Failed to parse JSON from category_transactions.py." ++ newline
                 ++ "Raw output: " ++ slice0 500 out)
                None)).

End Wrapper.
End MonarchTransactions.

(** ** The script invocation shared by the two wrappers

    Both [run] functions end with the same code, up to the name of the
    script: spawn the command, turn a failure into an error, parse the
    output.  [invoke] is that code with the name as a parameter; the two
    wrappers are shown equal to it below, so that each property is
    proved once. *)

Section Invocation.

Variable w : World.
Variable script : string.

Definition fallback_message (err : Thrown) : string :=
  script ++ " failed (exit " ++ thrown_status_text err ++ ")." ++ newline
  ++ or_string (Some (trim (default EmptyString (thrown_stderr err)))) "No stderr output.".

Definition parse_failure_message (out : string) : string :=
  "Failed to parse JSON from " ++ script ++ "." ++ newline
  ++ "Raw output: " ++ slice0 500 out.

Definition on_failure (err : Thrown) : M string :=
  let raw := trim (default EmptyString (thrown_stdout err)) in
  (if nonempty raw then
     try_catch
       (payload <- json_parse w raw ;;
        e <- prop_error payload ;;
        wrapped <- new_Error w (or_value e (JString default_message)) ;;
        throw (set_payload wrapped payload))
       (fun innerErr =>
          if truthy_opt (thrown_payload innerErr) then throw innerErr else ret tt)
   else ret tt) ;;;
  throw (ErrorObject (fallback_message err) None).

Definition parse_output (out : string) : M value :=
  try_catch (json_parse w (trim out))
            (fun _ => throw (ErrorObject (parse_failure_message out) None)).

Definition invoke (cmd : string) : M value :=
  out <- try_catch (child_execSync w cmd script_options) on_failure ;;
  parse_output out.

(** The error the inner [try] rethrows for the trimmed stdout [raw],
    if it rethrows one. *)
Definition structured_error (raw : string) : option Thrown :=
  if nonempty raw then
    match JSON_parse w raw with
    | None => None
    | Some payload =>
        match get_error payload with
        | AccessTypeError => None
        | AccessUndefined =>
            if truthy payload
            then Some (ErrorObject default_message (Some payload)) else None
        | AccessValue e =>
            match ToString (Number_toString w)
                           (if truthy e then e else JString default_message) with
            | Some message =>
                if truthy payload
                then Some (ErrorObject message (Some payload)) else None
            | None => None
            end
        end
    end
  else None.

End Invocation.

(** ** The two skills side by side *)

Inductive skill : Type := report | transactions.

Definition run (s : skill) (w : World) : M value :=
  match s with
  | report => MonarchReport.run w
  | transactions => MonarchTransactions.run w
  end.

Definition findPython (s : skill) (w : World) : M string :=
  match s with
  | report => MonarchReport.findPython w
  | transactions => MonarchTransactions.findPython w
  end.

Definition command (s : skill) (w : World) (python : string) : string :=
  match s with
  | report => MonarchReport.command w python
  | transactions => MonarchTransactions.command w python
  end.

(** The name under which each wrapper reports its script. *)
Definition script (s : skill) : string :=
  match s with
  | report => "over_budget_report.py"
  | transactions => "category_transactions.py"
  end.

(** The message of [findPython]'s error. *)
Definition python_missing (s : skill) : string :=
  match s with
  | report => MonarchReport.not_available
  | transactions => MonarchTransactions.not_found
  end.

(** What [run] checks before it looks for Python: the transaction lookup
    wants a category, the report wants nothing. *)
Definition supplied (s : skill) (w : World) : bool :=
  match s with
  | report => true
  | transactions => nonempty (MonarchTransactions.category w)
  end.

(** Whether the probe [candidate --version] answers as a Python 3. *)
Definition answers_python3 (w : World) (candidate : string) : bool :=
  match execSync w (candidate ++ " --version") probe_options with
  | ExecOk out => includes "Python 3" out
  | ExecFail _ => false
  end.

Definition probe_event (candidate : string) : Event :=
  EvExecSync (candidate ++ " --version") probe_options.

(** The system probes, the same loop in both wrappers: [python3], then
    [python], then the error. *)
Definition system_python (w : World) (missing : string) : M string :=
  if answers_python3 w "python3" then
    ([probe_event "python3"], Return "python3")
  else if answers_python3 w "python" then
    ([probe_event "python3"; probe_event "python"], Return "python")
  else
    ([probe_event "python3"; probe_event "python"],
     Throw (ErrorObject missing None)).

Definition venv_bin (w : World) : string :=
  path_join [PROJECT_ROOT w; ".venv"; "bin"; "python"].
Definition venv_Scripts (w : World) : string :=
  path_join [PROJECT_ROOT w; ".venv"; "Scripts"; "python"].

(** An event of [findPython]: a file check or one of the two version
    probes. *)
Definition is_probe (ev : Event) : Prop :=
  match ev with
  | EvExistsSync _ => True
  | EvExecSync cmd opts =>
      (cmd = "python3 --version" \/ cmd = "python --version") /\ opts = probe_options
  end.

(** No Python 3 runtime: neither probe answers as a Python 3, and, for
    the transaction lookup, the project has no venv. *)
Definition no_python3 (s : skill) (w : World) : bool :=
  negb (answers_python3 w "python3") && negb (answers_python3 w "python")
  && match s with
     | report => true
     | transactions =>
         negb (existsSync w (venv_bin w)) && negb (existsSync w (venv_Scripts w))
     end.

(** The file checks that come before the probes. *)
Definition venv_checks (s : skill) (w : World) : list Event :=
  match s with
  | report => []
  | transactions => [EvExistsSync (venv_bin w); EvExistsSync (venv_Scripts w)]
  end.

(** The message the wrappers give the error that carries the payload
    [members]: the [error] member when it is truthy (through [ToString],
    [None] being its [TypeError]), the default otherwise. *)
Definition structured_message (w : World) (members : list (string * value)) : option string :=
  match member "error" members with
  | Some e => if truthy e then ToString (Number_toString w) e else Some default_message
  | None => Some default_message
  end.

(** The [code] member of the payload an error carries. *)
Definition error_code (t : Thrown) : option value :=
  match thrown_payload t with
  | Some (JObject members) => member "code" members
  | _ => None
  end.

(** A parameter that is not set, or set to the empty string. *)
Definition unset (o : option string) : bool :=
  negb (nonempty (default EmptyString o)).

(** The three parameters the wrappers resolve from two sources. *)
Inductive parameter : Type := Threshold | Category | Month.

Definition env_name (p : parameter) : string :=
  match p with
  | Threshold => "THRESHOLD"
  | Category => "CATEGORY"
  | Month => "MONTH"
  end.

Definition argv_index (p : parameter) : nat :=
  match p with
  | Threshold => 2
  | Category => 2
  | Month => 3
  end.

Definition default_of (p : parameter) : string :=
  match p with
  | Threshold => "50"
  | Category => EmptyString
  | Month => EmptyString
  end.

(** The value the wrapper uses. *)
Definition resolved (p : parameter) (w : World) : string :=
  match p with
  | Threshold => MonarchReport.threshold w
  | Category => MonarchTransactions.category w
  | Month => MonarchTransactions.month w
  end.

(** ** over_budget_report.py: the budget-overage analyzer

    The script is not among the sources: the analyzer is modelled from
    section 4.3 of the specification, with the data model of its
    section 3. *)

Module BudgetOverageAnalyzer.

(** Amounts are decimal currency values, kept in integer cents. *)
Record BudgetCategory : Type := {
  name : string;
  group : string;
  planned : Z;
  actual : Z
}.

(** The derived field: [actual - planned], which may be negative. *)
Definition overage (c : BudgetCategory) : Z := actual c - planned c.

Record OverBudgetReport : Type := {
  threshold : Z;
  entries : list BudgetCategory;
  total_overage : Z
}.

(** [actual - planned > threshold], strictly. *)
Definition over (t : Z) (c : BudgetCategory) : bool := t <? overage c.

(** Puts [c] in front of the first entry whose overage is not greater
    than its own; entries of equal overage keep the provider's order. *)
Fixpoint insert_by_overage (c : BudgetCategory) (sorted : list BudgetCategory)
  : list BudgetCategory :=
  match sorted with
  | [] => [c]
  | d :: rest =>
      if overage d <=? overage c then c :: d :: rest
      else d :: insert_by_overage c rest
  end.

Definition sort_by_overage (l : list BudgetCategory) : list BudgetCategory :=
  fold_right insert_by_overage [] l.

Definition sum_overage (l : list BudgetCategory) : Z :=
  fold_right (fun c total => overage c + total) 0 l.

(** Modelled from the spec: the function [analyze] of
    [over_budget_report.py], which is not among the sources.  It keeps
    the categories with [actual - planned > threshold], sorts them by
    overage, descending, and sums the overage of the ones it kept. *)
Definition analyze (categories : list BudgetCategory) (t : Z) : OverBudgetReport :=
  let kept := sort_by_overage (List.filter (over t) categories) in
  {| threshold := t; entries := kept; total_overage := sum_overage kept |}.

(** Entries by overage, greatest first. *)
Definition descending : list BudgetCategory -> Prop :=
  Sorted (fun c d => overage d <= overage c).

(** The categories of the specification's scenarios A and B, in cents. *)
Definition dining_out : BudgetCategory :=
  {| name := "Dining Out"; group := "Food&Drink"; planned := 20000; actual := 31245 |}.
Definition rent : BudgetCategory :=
  {| name := "Rent"; group := "Housing"; planned := 150000; actual := 150000 |}.

End BudgetOverageAnalyzer.
(** ** Concrete worlds

    A world given by tables: what [JSON.parse] yields on the texts the
    example feeds it (a [SyntaxError] elsewhere), the environment
    variables, the arguments, the files that exist, and the outcome of
    each command (status 127 with the shell's message for any other). *)

Fixpoint assoc {A} (key : string) (table : list (string * A)) : option A :=
  match table with
  | [] => None
  | (k, a) :: rest => if String.eqb k key then Some a else assoc key rest
  end.

Definition command_not_found : ExecResult :=
  ExecFail {| status := Some 127; signal := None;
              stdout := Some EmptyString;
              stderr := Some "/bin/sh: command not found" |}.

(** Number printing of the concrete worlds: right on the integers below
    [10 ^ 21] and on the infinities, which is all the examples print. *)
Definition print_number (n : number) : string :=
  match n with
  | NFinite m e => string_of_Z (m * 2 ^ e)
  | NInfinity false => "Infinity"
  | NInfinity true => "-Infinity"
  end.

Definition table_world
    (json : list (string * value))
    (envs : list (string * string)) (args : list string)
    (files : list string) (commands : list (string * ExecResult)) : World :=
  {| JSON_parse := fun text => assoc text json;
     Number_toString := print_number;
     env := list_to_map envs;
     argv := args;
     PROJECT_ROOT := "/srv/monarch-automation";
     existsSync := fun path => bool_decide (path ∈ files);
     execSync := fun cmd _ => default command_not_found (assoc cmd commands) |}.

Definition python3_version : string * ExecResult :=
  ("python3 --version", ExecOk ("Python 3.11.4" ++ newline)).

Definition exit_with (code : Z) (out err : string) : ExecResult :=
  ExecFail {| status := Some code; signal := None;
              stdout := Some out; stderr := Some err |}.

(** What [execSync] throws when the 30 second timeout kills the child. *)
Definition timed_out (out err : string) : ExecResult :=
  ExecFail {| status := None; signal := Some "SIGTERM";
              stdout := Some out; stderr := Some err |}.

(** *** Worlds of the examples: the report skill, installed under
    [/srv/monarch-automation], with [python3] on the PATH. *)

Definition report_command (threshold : string) : string :=
  "python3 " ++ quoted "/srv/monarch-automation/over_budget_report.py"
  ++ " --json --threshold " ++ threshold
  ++ " --session " ++ quoted "/srv/monarch-automation/session.json".

Definition report_world
    (json : list (string * value)) (envs : list (string * string))
    (args : list string) (outcome : ExecResult) : World :=
  table_world json envs args []
    [python3_version;
     (report_command (or_string (or_else (assoc "THRESHOLD" envs) (args !! 2%nat)) "50"),
      outcome)].

(** [{"over_budget": [], "total_overage": 0}] *)
Definition within_budget_text : string :=
  "{" ++ quoted "over_budget" ++ ": [], " ++ quoted "total_overage" ++ ": 0}".
Definition within_budget : value :=
  JObject [("over_budget", JArray []); ("total_overage", JNumber (NFinite 0 0))].

(** [{"error": "Session appears to be expired", "code": "SESSION_EXPIRED"}] *)
Definition expired_text : string :=
  "{" ++ quoted "error" ++ ": " ++ quoted "Session appears to be expired" ++ ", "
  ++ quoted "code" ++ ": " ++ quoted "SESSION_EXPIRED" ++ "}".
Definition expired : list (string * value) :=
  [("error", JString "Session appears to be expired");
   ("code", JString "SESSION_EXPIRED")].

(** [{"error": "", "code": "API_ERROR"}] *)
Definition silent_text : string :=
  "{" ++ quoted "error" ++ ": " ++ quoted EmptyString ++ ", "
  ++ quoted "code" ++ ": " ++ quoted "API_ERROR" ++ "}".
Definition silent : list (string * value) :=
  [("error", JString EmptyString); ("code", JString "API_ERROR")].

Definition node_argv : list string := ["node"; "impl.js"].

Definition w_success : World :=
  report_world [(within_budget_text, within_budget)] [] node_argv
    (ExecOk (within_budget_text ++ newline)).

Definition w_garbled : World :=
  report_world [] [] node_argv (ExecOk ("Fetching budgets..." ++ newline)).

Definition w_expired : World :=
  report_world [(expired_text, JObject expired)] [] node_argv
    (exit_with 1 (expired_text ++ newline) EmptyString).

Definition w_silent : World :=
  report_world [(silent_text, JObject silent)] [] node_argv
    (exit_with 1 (silent_text ++ newline) EmptyString).

Definition w_crash : World :=
  report_world [] [] node_argv
    (exit_with 1 EmptyString ("ModuleNotFoundError: No module named 'monarchmoney'" ++ newline)).

Definition w_timeout : World :=
  report_world [] [] node_argv (timed_out EmptyString EmptyString).

(** The script fails after writing the JSON text [null]. *)
Definition w_null : World :=
  report_world [("null", JNull)] [] node_argv
    (exit_with 1 ("null" ++ newline) "Traceback (most recent call last):").

(** [{"error": {"toString": 1}}]: an [error] member that has no
    string conversion. *)
Definition shadowed_text : string :=
  "{" ++ quoted "error" ++ ": {" ++ quoted "toString" ++ ": 1}}".
Definition shadowed : value :=
  JObject [("error", JObject [("toString", JNumber (NFinite 1 0))])].

Definition w_shadowed : World :=
  report_world [(shadowed_text, shadowed)] [] node_argv
    (exit_with 1 shadowed_text EmptyString).

(** No Python anywhere: every command fails. *)
Definition w_no_python : World := table_world [] [] node_argv [] [].

(** [THRESHOLD=100 node impl.js 25] *)
Definition w_both : World :=
  report_world [(within_budget_text, within_budget)] [("THRESHOLD", "100")]
    ["node"; "impl.js"; "25"] (ExecOk (within_budget_text ++ newline)).

(** [THRESHOLD=abc node impl.js]; the script's answer is the one of
    Python's [argparse] to a value that is no number. *)
Definition w_not_a_number : World :=
  report_world [] [("THRESHOLD", "abc")] node_argv
    (exit_with 2 EmptyString
       ("over_budget_report.py: error: argument --threshold: invalid float value: 'abc'"
        ++ newline)).

(** ** Direct invocation

    Both files end with the same block, run when the file is the main
    module: print the result, or report the error on stderr and exit
    with status 1. *)

Inductive Output : Type :=
| ConsoleLog (line : string)
| ConsoleError (line : string).

(** What the process has written, and the status it exits with. *)
Record Exit : Type := {
  written : list Output;
  exit_status : Z
}.

(** [console.log] writes to stdout, [console.error] to stderr. *)
Definition to_stdout (o : Output) : bool :=
  match o with ConsoleLog _ => true | ConsoleError _ => false end.

Section DirectInvocation.

(** [JSON.stringify(v, null, 2)], and the [message] of the errors the
    runtime builds itself: two more primitives taken as they come. *)
Variable JSON_stringify : value -> string.
Variable native_message : Thrown -> string.

(** [err.message] *)
Definition thrown_message (err : Thrown) : string :=
  match err with
  | ErrorObject message _ => message
  | native => native_message native
  end.

(** [console.error(label, text)]: the two, with a space between. *)
Definition console_error (label text : string) : Output :=
  ConsoleError (label ++ " " ++ text).

Definition main (s : skill) (w : World) : list Event * Exit :=
  match run s w with
  | (tr, Return result) =>
      (tr, {| written := [ConsoleLog (JSON_stringify result)]; exit_status := 0 |})
  | (tr, Throw err) =>
      (tr, {| written :=
                console_error "Skill error:" (thrown_message err)
                :: match thrown_payload err with
                   | Some p =>
                       if truthy p
                       then [console_error "Payload:" (JSON_stringify p)]
                       else []
                   | None => []
                   end;
              exit_status := 1 |})
  end.

End DirectInvocation.

(** An event that spawns a subprocess. *)
Definition is_spawn (ev : Event) : Prop :=
  match ev with
  | EvExecSync _ _ => True
  | EvExistsSync _ => False
  end.

(** A JSON value that is no object: a primitive or an array. *)
Definition not_an_object (v : value) : bool :=
  match v with JObject _ => false | _ => true end.

(** Whether the code unit [c] occurs in [s]. *)
Fixpoint occurs (c : ascii) (s : string) : bool :=
  match s with
  | EmptyString => false
  | String d rest => Ascii.eqb c d || occurs c rest
  end.

(** *** More worlds of the examples *)

(** The script fails after writing the JSON string ["quota exceeded"]. *)
Definition w_plain_text : World :=
  report_world [(quoted "quota exceeded", JString "quota exceeded")] [] node_argv
    (exit_with 1 (quoted "quota exceeded" ++ newline) EmptyString).

(** The transaction lookup, with a project venv and [CATEGORY=Dining Out]. *)
Definition venv_python : string := "/srv/monarch-automation/.venv/bin/python".

Definition transactions_command (python category : string) : string :=
  python ++ " " ++ quoted "/srv/monarch-automation/category_transactions.py"
  ++ " --json --category " ++ quoted category
  ++ " --session " ++ quoted "/srv/monarch-automation/session.json".

(** [{"transactions": [], "total": 0, "count": 0}] *)
Definition no_transactions_text : string :=
  "{" ++ quoted "transactions" ++ ": [], " ++ quoted "total" ++ ": 0, "
  ++ quoted "count" ++ ": 0}".
Definition no_transactions : value :=
  JObject [("transactions", JArray []); ("total", JNumber (NFinite 0 0));
           ("count", JNumber (NFinite 0 0))].

Definition w_venv : World :=
  table_world [(no_transactions_text, no_transactions)]
    [("CATEGORY", "Dining Out")] node_argv [venv_python]
    [(transactions_command venv_python "Dining Out",
      ExecOk (no_transactions_text ++ newline))].

(** * Facts about the model *)

Example trim_ex : trim (" " ++ newline ++ "{x} " ++ newline) = "{x}".
Proof. reflexivity. Qed.

Example includes_ex : includes "Python 3" "Python 3.11.4" = true.
Proof. reflexivity. Qed.

Example string_of_Z_ex : string_of_Z 2 = "2" /\ string_of_Z 127 = "127".
Proof. split; reflexivity. Qed.

(** ** The laws of the monad *)

Lemma bind_ret {A B} (a : A) (k : A -> M B) : bind (ret a) k = k a.
Proof. unfold bind, ret. destruct (k a). reflexivity. Qed.

Lemma bind_throw {A B} (t : Thrown) (k : A -> M B) : bind (throw t) k = throw t.
Proof. reflexivity. Qed.

Lemma try_catch_ret {A} (a : A) (h : Thrown -> M A) : try_catch (ret a) h = ret a.
Proof. reflexivity. Qed.

Lemma try_catch_throw {A} (t : Thrown) (h : Thrown -> M A) :
  try_catch (throw t) h = h t.
Proof. unfold try_catch, throw. destruct (h t). reflexivity. Qed.

Lemma bind_event_return {A B} (ev : list Event) (a : A) (k : A -> M B) :
  bind (ev, Return a) k = ((ev ++ trace (k a))%list, completion (k a)).
Proof. unfold bind, trace, completion. destruct (k a). reflexivity. Qed.

Lemma bind_event_throw {A B} (ev : list Event) (t : Thrown) (k : A -> M B) :
  bind (ev, Throw t) k = (ev, Throw t).
Proof. reflexivity. Qed.

#[local] Ltac js_simpl :=
  repeat (rewrite ?bind_ret, ?bind_throw, ?try_catch_ret, ?try_catch_throw; cbn beta iota).

(** ** The script invocation *)

Section InvocationFacts.

Variable w : World.
Variable name : string.

Lemma on_failure_spec (err : Thrown) :
  on_failure w name err =
  ([], Throw (match structured_error w (trim (default EmptyString (thrown_stdout err))) with
              | Some t => t
              | None => ErrorObject (fallback_message name err) None
              end)).
Proof.
  unfold on_failure, structured_error.
  set (raw := trim (default EmptyString (thrown_stdout err))).
  destruct (nonempty raw); [|reflexivity].
  unfold json_parse.
  destruct (JSON_parse w raw) as [payload|]; [|reflexivity].
  js_simpl. unfold prop_error.
  destruct (get_error payload) as [| |e]; js_simpl; [reflexivity| |].
  - unfold new_Error; cbn [or_value ToString]; js_simpl.
    cbn [set_payload thrown_payload truthy_opt].
    destruct (truthy payload); reflexivity.
  - unfold new_Error; cbn [or_value].
    destruct (ToString _ _) as [message|]; js_simpl; [|reflexivity].
    cbn [set_payload thrown_payload truthy_opt].
    destruct (truthy payload); reflexivity.
Qed.

Lemma invoke_fail (cmd : string) (f : ChildFailure) :
  execSync w cmd script_options = ExecFail f ->
  invoke w name cmd =
  ([EvExecSync cmd script_options],
   Throw (match structured_error w (trim (default EmptyString (stdout f))) with
          | Some t => t
          | None => ErrorObject (fallback_message name (ChildProcessError f)) None
          end)).
Proof.
  intros Hexec. unfold invoke, child_execSync. rewrite Hexec.
  cbn [try_catch]. rewrite on_failure_spec. reflexivity.
Qed.

Lemma invoke_ok (cmd out : string) :
  execSync w cmd script_options = ExecOk out ->
  invoke w name cmd =
  ([EvExecSync cmd script_options],
   match JSON_parse w (trim out) with
   | Some v => Return v
   | None => Throw (ErrorObject (parse_failure_message name out) None)
   end).
Proof.
  intros Hexec. unfold invoke, child_execSync, parse_output, json_parse.
  rewrite Hexec. cbn.
  destruct (JSON_parse w (trim out)); reflexivity.
Qed.

(** The invocation spawns exactly one command, with the script options. *)
Lemma invoke_trace (cmd : string) :
  trace (invoke w name cmd) = [EvExecSync cmd script_options].
Proof.
  destruct (execSync w cmd script_options) as [out|f] eqn:Hexec.
  - rewrite (invoke_ok _ _ Hexec). reflexivity.
  - rewrite (invoke_fail _ _ Hexec). reflexivity.
Qed.

(** Whatever the failure, the invocation throws an [Error] object. *)
Lemma invoke_fail_throws (cmd : string) (f : ChildFailure) :
  execSync w cmd script_options = ExecFail f ->
  exists message payload,
    completion (invoke w name cmd) = Throw (ErrorObject message payload).
Proof.
  intros Hexec. rewrite (invoke_fail cmd f Hexec). cbn [completion snd].
  unfold structured_error.
  destruct (nonempty _); [|eauto].
  destruct (JSON_parse w _) as [payload|]; [|eauto].
  destruct (get_error payload) as [| |e]; [eauto| |].
  - destruct (truthy payload); eauto.
  - destruct (ToString _ _); [|eauto]. destruct (truthy payload); eauto.
Qed.

End InvocationFacts.

(** The inner [catch] swallows what carries no payload: on the JSON
    text [null] the property access throws a [TypeError], on an [error]
    member without string conversion [new Error] does, and [run] falls
    back on the exit status and stderr. *)
Example null_falls_back :
  completion (run report w_null) =
  Throw (ErrorObject
           ("over_budget_report.py failed (exit 1)." ++ newline
            ++ "Traceback (most recent call last):")
           None).
Proof. reflexivity. Qed.

Example shadowed_falls_back :
  completion (run report w_shadowed) =
  Throw (ErrorObject
           ("over_budget_report.py failed (exit 1)." ++ newline ++ "No stderr output.")
           None).
Proof. reflexivity. Qed.

(** ** The wrappers are the shared invocation *)

Lemma report_run_invoke (w : World) :
  MonarchReport.run w =
  (python <- MonarchReport.findPython w ;;
   invoke w "over_budget_report.py" (MonarchReport.command w python)).
Proof. reflexivity. Qed.

Lemma transactions_run_invoke (w : World) :
  MonarchTransactions.run w =
  if negb (nonempty (MonarchTransactions.category w))
  then throw (ErrorObject MonarchTransactions.no_category None)
  else (python <- MonarchTransactions.findPython w ;;
        invoke w "category_transactions.py" (MonarchTransactions.command w python)).
Proof. reflexivity. Qed.

Lemma run_invoke (s : skill) (w : World) :
  run s w =
  if supplied s w
  then (python <- findPython s w ;; invoke w (script s) (command s w python))
  else throw (ErrorObject MonarchTransactions.no_category None).
Proof.
  destruct s; cbn [run supplied findPython script command].
  - apply report_run_invoke.
  - rewrite transactions_run_invoke. destruct (nonempty _); reflexivity.
Qed.

(** Once Python is found, [run] is the script invocation, after the
    probes. *)
Lemma run_found (s : skill) (w : World) (tr : list Event) (python : string) :
  supplied s w = true ->
  findPython s w = (tr, Return python) ->
  run s w =
  ((tr ++ [EvExecSync (command s w python) script_options])%list,
   completion (invoke w (script s) (command s w python))).
Proof.
  intros Hsup Hfind. rewrite run_invoke, Hsup, Hfind, bind_event_return.
  rewrite invoke_trace. reflexivity.
Qed.

(** The command of the report, spelled out. *)
Lemma report_command_text (w : World) (python : string) :
  MonarchReport.command w python =
  python ++ " " ++ quoted (MonarchReport.SCRIPT_PATH w)
  ++ " --json --threshold " ++ MonarchReport.threshold w
  ++ " --session " ++ quoted (MonarchReport.SESSION_PATH w).
Proof. reflexivity. Qed.

(** ** Python detection *)

(** One probe of the system candidates. *)
Lemma probe_step (w : World) (candidate : string) :
  try_catch
    (out <- child_execSync w (candidate ++ " --version") probe_options ;;
     ret (includes "Python 3" out))
    (fun _ => ret false)
  = ([probe_event candidate], Return (answers_python3 w candidate)).
Proof.
  unfold child_execSync, answers_python3, probe_event.
  destruct (execSync w _ probe_options); reflexivity.
Qed.

Lemma report_findPython_from_cons (w : World) (candidate : string) (rest : list string) :
  MonarchReport.findPython_from w (candidate :: rest) =
  if answers_python3 w candidate then ([probe_event candidate], Return candidate)
  else (probe_event candidate :: trace (MonarchReport.findPython_from w rest),
        completion (MonarchReport.findPython_from w rest)).
Proof.
  cbn [MonarchReport.findPython_from].
  rewrite probe_step, bind_event_return.
  destruct (answers_python3 w candidate); reflexivity.
Qed.

Lemma report_findPython_spec (w : World) :
  MonarchReport.findPython w = system_python w MonarchReport.not_available.
Proof.
  unfold MonarchReport.findPython, system_python.
  rewrite !report_findPython_from_cons.
  destruct (answers_python3 w "python3"); [reflexivity|].
  destruct (answers_python3 w "python"); reflexivity.
Qed.

Lemma transactions_findPython_system_cons
    (w : World) (candidate : string) (rest : list string) :
  MonarchTransactions.findPython_system w (candidate :: rest) =
  if answers_python3 w candidate then ([probe_event candidate], Return candidate)
  else (probe_event candidate :: trace (MonarchTransactions.findPython_system w rest),
        completion (MonarchTransactions.findPython_system w rest)).
Proof.
  cbn [MonarchTransactions.findPython_system].
  rewrite probe_step, bind_event_return.
  destruct (answers_python3 w candidate); reflexivity.
Qed.

Lemma transactions_findPython_system_spec (w : World) :
  MonarchTransactions.findPython_system w ["python3"; "python"] =
  system_python w MonarchTransactions.not_found.
Proof.
  unfold system_python.
  rewrite !transactions_findPython_system_cons.
  destruct (answers_python3 w "python3"); [reflexivity|].
  destruct (answers_python3 w "python"); reflexivity.
Qed.

(** The project venv comes first, and is taken on its mere existence. *)
Lemma transactions_findPython_spec (w : World) :
  MonarchTransactions.findPython w =
  if existsSync w (venv_bin w) then
    ([EvExistsSync (venv_bin w)], Return (venv_bin w))
  else if existsSync w (venv_Scripts w) then
    ([EvExistsSync (venv_bin w); EvExistsSync (venv_Scripts w)],
     Return (venv_Scripts w))
  else
    (([EvExistsSync (venv_bin w); EvExistsSync (venv_Scripts w)]
      ++ trace (system_python w MonarchTransactions.not_found))%list,
     completion (system_python w MonarchTransactions.not_found)).
Proof.
  unfold MonarchTransactions.findPython, MonarchTransactions.venvCandidates.
  fold (venv_bin w) (venv_Scripts w).
  cbn [MonarchTransactions.findPython_venv].
  rewrite transactions_findPython_system_spec.
  unfold fs_existsSync. rewrite !bind_event_return.
  destruct (existsSync w (venv_bin w)); [reflexivity|].
  destruct (existsSync w (venv_Scripts w)); [reflexivity|].
  cbn [trace completion fst snd bind].
  destruct (system_python w _) as [tr c]. destruct c; reflexivity.
Qed.

Lemma system_python_probes (w : World) (missing : string) :
  Forall is_probe (trace (system_python w missing)).
Proof.
  unfold system_python.
  destruct (answers_python3 w "python3"); [|destruct (answers_python3 w "python")];
    cbn [trace fst];
    repeat (apply List.Forall_cons; [split; [auto | reflexivity] |]);
    apply List.Forall_nil.
Qed.

(** Every event of [findPython] is a file check or one of the two
    version probes, whatever the world answers. *)
Lemma findPython_probes (s : skill) (w : World) :
  Forall is_probe (trace (findPython s w)).
Proof.
  destruct s; cbn [findPython].
  - rewrite report_findPython_spec. apply system_python_probes.
  - rewrite transactions_findPython_spec.
    assert (Hfile : forall path, is_probe (EvExistsSync path)) by exact (fun _ => I).
    destruct (existsSync w (venv_bin w)); [repeat constructor; apply Hfile|].
    destruct (existsSync w (venv_Scripts w)); [repeat constructor; apply Hfile|].
    cbn [trace fst]. apply Forall_app. split; [repeat constructor; apply Hfile|].
    apply system_python_probes.
Qed.

(** Every command [run] spawns is a version probe or the script
    invocation, and the script invocation has the script options. *)
Lemma run_spawns (s : skill) (w : World) (cmd : string) (opts : ExecOptions) :
  In (EvExecSync cmd opts) (trace (run s w)) ->
  ((cmd = "python3 --version" \/ cmd = "python --version") /\ opts = probe_options)
  \/ ((exists python tr, findPython s w = (tr, Return python)
                         /\ cmd = command s w python)
      /\ opts = script_options).
Proof.
  rewrite run_invoke. destruct (supplied s w); [|intros []].
  pose proof (findPython_probes s w) as Hprobes.
  destruct (findPython s w) as [tr [python|t]];
    [rewrite bind_event_return, invoke_trace|rewrite bind_event_throw];
    cbn [trace fst] in *; intros Hin.
  - apply in_app_or in Hin as [Hin|[Hin|[]]].
    + left. exact (proj1 (List.Forall_forall _ _) Hprobes _ Hin).
    + right. inversion Hin; subst. split; [exists python, tr; split|]; reflexivity.
  - left. exact (proj1 (List.Forall_forall _ _) Hprobes _ Hin).
Qed.

(** [findPython] throws nothing but its own error. *)
Lemma findPython_throws (s : skill) (w : World) (tr : list Event) (t : Thrown) :
  findPython s w = (tr, Throw t) -> t = ErrorObject (python_missing s) None.
Proof.
  destruct s; cbn [findPython python_missing].
  - rewrite report_findPython_spec. unfold system_python.
    destruct (answers_python3 w "python3"); [|destruct (answers_python3 w "python")];
      intros H; inversion H; reflexivity.
  - rewrite transactions_findPython_spec.
    destruct (existsSync w (venv_bin w)); [intros H; inversion H|].
    destruct (existsSync w (venv_Scripts w)); [intros H; inversion H|].
    unfold system_python.
    destruct (answers_python3 w "python3"); [|destruct (answers_python3 w "python")];
      intros H; inversion H; reflexivity.
Qed.

(** ** Parameter resolution *)

Lemma resolved_unfold (p : parameter) (w : World) :
  resolved p w
  = or_string (or_else (env w !! env_name p) (argv w !! argv_index p)) (default_of p).
Proof. destruct p; reflexivity. Qed.

Lemma or_string_first (e : string) (a : option string) (d : string) :
  nonempty e = true -> or_string (or_else (Some e) a) d = e.
Proof. intros He. cbn. rewrite He. cbn. rewrite He. reflexivity. Qed.

Lemma or_string_second (o : option string) (a d : string) :
  unset o = true -> nonempty a = true -> or_string (or_else o (Some a)) d = a.
Proof.
  unfold unset. intros Ho Ha.
  destruct o as [[|c e]|]; try discriminate Ho; cbn; rewrite Ha; reflexivity.
Qed.

Lemma or_string_default (o o' : option string) (d : string) :
  unset o = true -> unset o' = true -> or_string (or_else o o') d = d.
Proof.
  unfold unset. intros Ho Ho'.
  destruct o as [[|c e]|]; try discriminate Ho;
    destruct o' as [[|c' a]|]; try discriminate Ho'; reflexivity.
Qed.

(** ** The analyzer *)

Example scenario_A :
  BudgetOverageAnalyzer.analyze
    [BudgetOverageAnalyzer.dining_out; BudgetOverageAnalyzer.rent] 5000 =
  {| BudgetOverageAnalyzer.threshold := 5000;
     BudgetOverageAnalyzer.entries := [BudgetOverageAnalyzer.dining_out];
     BudgetOverageAnalyzer.total_overage := 11245 |}.
Proof. reflexivity. Qed.

Example scenario_B :
  BudgetOverageAnalyzer.analyze
    [BudgetOverageAnalyzer.dining_out; BudgetOverageAnalyzer.rent] 20000 =
  {| BudgetOverageAnalyzer.threshold := 20000;
     BudgetOverageAnalyzer.entries := [];
     BudgetOverageAnalyzer.total_overage := 0 |}.
Proof. reflexivity. Qed.

Section AnalyzerFacts.

Import BudgetOverageAnalyzer.

Lemma insert_by_overage_perm (c : BudgetCategory) (l : list BudgetCategory) :
  Permutation (insert_by_overage c l) (c :: l).
Proof.
  induction l as [|d rest IH]; cbn [insert_by_overage].
  - apply Permutation_refl.
  - destruct (overage d <=? overage c).
    + apply Permutation_refl.
    + eapply perm_trans; [apply perm_skip, IH | apply perm_swap].
Qed.

Lemma sort_by_overage_perm (l : list BudgetCategory) :
  Permutation (sort_by_overage l) l.
Proof.
  induction l as [|c rest IH]; cbn [sort_by_overage fold_right].
  - apply perm_nil.
  - eapply perm_trans; [apply insert_by_overage_perm | apply perm_skip, IH].
Qed.

Lemma insert_by_overage_descending (c : BudgetCategory) (l : list BudgetCategory) :
  descending l -> descending (insert_by_overage c l).
Proof.
  unfold descending. induction 1 as [|d rest Hsorted IH Hhd]; cbn [insert_by_overage].
  - repeat constructor.
  - destruct (Z.leb_spec (overage d) (overage c)) as [Hle|Hgt].
    + constructor; [constructor; assumption|constructor; exact Hle].
    + constructor; [exact IH|].
      destruct rest as [|d' rest']; cbn [insert_by_overage].
      * constructor. lia.
      * destruct (overage d' <=? overage c); constructor; [lia|].
        inversion Hhd; assumption.
Qed.

Lemma analyze_descending (categories : list BudgetCategory) (t : Z) :
  descending (entries (analyze categories t)).
Proof.
  cbn [analyze entries]. induction (List.filter (over t) categories) as [|c l IH].
  - constructor.
  - apply insert_by_overage_descending. exact IH.
Qed.

End AnalyzerFacts.

(** ** The message of a structured error *)

(** The scripts write the [error] member as a string, and for a string
    the message is always defined: the string itself, or the default
    when it is empty.  So it is when the member is absent. *)
Lemma structured_message_of_string
    (w : World) (members : list (string * value)) (e : string) :
  member "error" members = Some (JString e) ->
  structured_message w members = Some (if nonempty e then e else default_message).
Proof.
  intros Hmember. unfold structured_message. rewrite Hmember.
  cbn [truthy ToString]. destruct (nonempty e); reflexivity.
Qed.

Lemma structured_message_of_absent (w : World) (members : list (string * value)) :
  member "error" members = None ->
  structured_message w members = Some default_message.
Proof. intros Hmember. unfold structured_message. rewrite Hmember. reflexivity. Qed.

(** ** Helpers on the probes and the script command *)

(** With no Python 3, [findPython] throws after the checks and probes. *)
Lemma findPython_none (s : skill) (w : World) :
  no_python3 s w = true ->
  findPython s w =
  ((venv_checks s w ++ [probe_event "python3"; probe_event "python"])%list,
   Throw (ErrorObject (python_missing s) None)).
Proof.
  unfold no_python3. intros Hno.
  apply andb_prop in Hno as [Hno Hvenv]. apply andb_prop in Hno as [H3 H2].
  apply negb_true_iff in H3, H2.
  destruct s; cbn [findPython venv_checks python_missing].
  - rewrite report_findPython_spec. unfold system_python. rewrite H3, H2.
    reflexivity.
  - apply andb_prop in Hvenv as [Hbin Hscripts].
    apply negb_true_iff in Hbin, Hscripts.
    rewrite transactions_findPython_spec, Hbin, Hscripts.
    unfold system_python. rewrite H3, H2. reflexivity.
Qed.

Lemma occurs_app (c : ascii) (a b : string) :
  occurs c (a ++ b) = occurs c a || occurs c b.
Proof.
  induction a as [|d a IH]; simpl; [reflexivity|].
  rewrite IH. apply orb_assoc.
Qed.

(** The script command holds a double quote, the probes do not. *)
Lemma command_is_no_probe (s : skill) (w : World) (python : string) :
  command s w python <> "python3 --version"
  /\ command s w python <> "python --version".
Proof.
  assert (Hquote : occurs "034"%char (command s w python) = true).
  { assert (Hshape : exists rest,
              command s w python = python ++ " " ++ String "034"%char rest).
    { destruct s; cbn [command].
      - eexists. reflexivity.
      - unfold MonarchTransactions.command.
        destruct (nonempty (MonarchTransactions.month w)); eexists; reflexivity. }
    destruct Hshape as [rest ->].
    rewrite occurs_app. cbn. apply orb_true_r. }
  split; intros Heq; rewrite Heq in Hquote; discriminate Hquote.
Qed.

(** * The claims *)

(** C1 (as the code has it): when the script fails after writing a JSON
    object to its stdout, and the object's [error] member is absent,
    falsy, or has a string conversion ([structured_message] is defined:
    so for every string, number and boolean, not for an object with a
    [toString] member of its own), [run] parses that stdout and throws
    an error that carries the parsed object as its payload.  The message
    is the [error] member, as a string, when that member is truthy (a
    non-empty string is taken as it is), and the fixed default message
    when the member is absent or falsy.  [JSON.parse] is taken to reject
    the empty text, as it does. *)
Theorem run_failure_carries_payload
    (s : skill) (w : World) (tr : list Event) (python : string)
    (f : ChildFailure) (members : list (string * value)) (message : string) :
  supplied s w = true ->
  findPython s w = (tr, Return python) ->
  execSync w (command s w python) script_options = ExecFail f ->
  JSON_parse w EmptyString = None ->
  JSON_parse w (trim (default EmptyString (stdout f))) = Some (JObject members) ->
  structured_message w members = Some message ->
  run s w =
    ((tr ++ [EvExecSync (command s w python) script_options])%list,
     Throw (ErrorObject message (Some (JObject members)))).
Proof.
  intros Hsup Hfind Hexec Hempty Hparse Hmsg.
  rewrite (run_found s w tr python Hsup Hfind).
  rewrite (invoke_fail w (script s) _ f Hexec).
  unfold structured_error.
  destruct (trim (default EmptyString (stdout f))) as [|c raw] eqn:Hraw.
  { rewrite Hempty in Hparse. discriminate. }
  cbn [nonempty]. rewrite Hparse. cbn [get_error truthy].
  unfold structured_message in Hmsg.
  destruct (member "error" members) as [e|].
  - destruct (truthy e); [rewrite Hmsg; reflexivity|].
    injection Hmsg as <-. reflexivity.
  - injection Hmsg as <-. reflexivity.
Qed.

Lemma run_failure_carries_payload_witness :
  run report w_expired =
  ([probe_event "python3"; EvExecSync (report_command "50") script_options],
   Throw (ErrorObject "Session appears to be expired" (Some (JObject expired)))).
Proof.
  exact (run_failure_carries_payload report w_expired
           [probe_event "python3"] "python3"
           {| status := Some 1; signal := None;
              stdout := Some (expired_text ++ newline); stderr := Some EmptyString |}
           expired "Session appears to be expired"
           eq_refl eq_refl eq_refl eq_refl eq_refl eq_refl).
Defined.

(** C1, as stated, fails: the script exits with status 1 after writing
    [{"error": "", "code": "API_ERROR"}]; the [error] member is present,
    and the message of the error [run] throws is not taken from it. *)
Lemma run_silent_error_counterexample :
  execSync w_silent (command report w_silent "python3") script_options
    = exit_with 1 (silent_text ++ newline) EmptyString
  /\ JSON_parse w_silent (trim (silent_text ++ newline)) = Some (JObject silent)
  /\ member "error" silent = Some (JString EmptyString)
  /\ completion (run report w_silent)
     = Throw (ErrorObject "Script exited with non-zero status" (Some (JObject silent)))
  /\ "Script exited with non-zero status" <> EmptyString.
Proof. repeat split; try reflexivity. discriminate. Qed.

(** C2 (as the code has it): the environment variable takes precedence
    over the positional argument, which takes precedence over the
    default ([50] for the threshold, empty for category and month).  A
    non-empty environment variable is the value used whatever [argv]
    holds; [argv] is used when the variable is unset or empty; the
    default when both are. *)
Theorem environment_precedes_argument (p : parameter) (w : World) :
  (forall e : string,
     env w !! env_name p = Some e -> nonempty e = true -> resolved p w = e)
  /\ (forall a : string,
        unset (env w !! env_name p) = true ->
        argv w !! argv_index p = Some a -> nonempty a = true -> resolved p w = a)
  /\ (unset (env w !! env_name p) = true ->
      unset (argv w !! argv_index p) = true -> resolved p w = default_of p).
Proof.
  rewrite resolved_unfold. repeat split.
  - intros e -> He. apply or_string_first. exact He.
  - intros a Henv -> Ha. apply or_string_second; assumption.
  - intros Henv Hargv. apply or_string_default; assumption.
Qed.

Lemma environment_precedes_argument_witness :
  env w_both !! "THRESHOLD" = Some "100"
  /\ argv w_both !! 2%nat = Some "25"
  /\ MonarchReport.threshold w_both = "100".
Proof.
  split; [reflexivity|]. split; [reflexivity|].
  exact (proj1 (environment_precedes_argument Threshold w_both) "100" eq_refl eq_refl).
Defined.

(** C2, as stated, fails: with [THRESHOLD=100] in the environment and
    [25] as the positional argument the two disagree, and the value used
    is the environment's, not the argument's. *)
Lemma argument_precedence_counterexample :
  env w_both !! "THRESHOLD" = Some "100"
  /\ argv w_both !! 2%nat = Some "25"
  /\ MonarchReport.threshold w_both = "100"
  /\ MonarchReport.threshold w_both <> "25".
Proof. repeat split; try reflexivity. discriminate. Qed.

(** C3 (as the code has it): the wrapper does not validate the
    threshold.  Whatever text the caller supplies, through the
    environment or as the argument, negative and non-numeric values
    included, once Python is found [run] raises no error of its own: it
    puts the text, unchanged and unquoted, after [--threshold] in the
    command line it hands to [execSync], spawns that one command, and
    completes as that invocation does.  What the script receives is
    what the shell makes of that command line. *)
Theorem threshold_forwarded_unchecked
    (w : World) (t : string) (tr : list Event) (python : string) :
  nonempty t = true ->
  env w !! "THRESHOLD" = Some t
    \/ (unset (env w !! "THRESHOLD") = true /\ argv w !! 2%nat = Some t) ->
  MonarchReport.findPython w = (tr, Return python) ->
  MonarchReport.run w =
    ((tr ++ [EvExecSync
               (python ++ " " ++ quoted (MonarchReport.SCRIPT_PATH w)
                ++ " --json --threshold " ++ t
                ++ " --session " ++ quoted (MonarchReport.SESSION_PATH w))
               script_options])%list,
     completion (invoke w "over_budget_report.py" (MonarchReport.command w python))).
Proof.
  intros Ht Hsource Hfind.
  assert (Hthreshold : MonarchReport.threshold w = t).
  { change (resolved Threshold w = t).
    rewrite resolved_unfold. cbn [env_name argv_index default_of].
    destruct Hsource as [->|[Hunset ->]].
    - apply or_string_first. exact Ht.
    - apply or_string_second; assumption. }
  rewrite <- Hthreshold, <- report_command_text.
  exact (run_found report w tr python eq_refl Hfind).
Qed.

Lemma threshold_forwarded_unchecked_witness :
  trace (run report w_not_a_number) =
  [probe_event "python3"; EvExecSync (report_command "abc") script_options].
Proof.
  exact (f_equal fst
           (threshold_forwarded_unchecked w_not_a_number "abc"
              [probe_event "python3"] "python3" eq_refl (or_introl eq_refl) eq_refl)).
Defined.

(** C3, as stated, fails: with [THRESHOLD=abc] the wrapper raises no
    invalid-argument error of its own; it spawns the command line with
    [--threshold abc] in it, and what the caller gets is the error of
    any failed script. *)
Lemma threshold_not_validated_counterexample :
  env w_not_a_number !! "THRESHOLD" = Some "abc"
  /\ In (EvExecSync (report_command "abc") script_options)
        (trace (run report w_not_a_number))
  /\ includes "--threshold abc" (report_command "abc") = true
  /\ completion (run report w_not_a_number)
     = Throw (ErrorObject
                (fallback_message "over_budget_report.py"
                   (ChildProcessError
                      {| status := Some 2; signal := None; stdout := Some EmptyString;
                         stderr := Some ("over_budget_report.py: error: argument "
                                         ++ "--threshold: invalid float value: 'abc'"
                                         ++ newline) |}))
                None).
Proof. repeat split; try reflexivity. right. left. reflexivity. Qed.

(** C4: when no category is supplied, neither by the [CATEGORY]
    environment variable nor by [argv[2]], the transaction lookup's [run]
    throws before Python detection and before any subprocess call: its
    trace is empty. *)
Theorem run_requires_category (w : World) :
  unset (env w !! "CATEGORY") = true ->
  unset (argv w !! 2%nat) = true ->
  MonarchTransactions.run w =
    ([], Throw (ErrorObject MonarchTransactions.no_category None)).
Proof.
  intros Henv Hargv. rewrite transactions_run_invoke.
  assert (Hcategory : MonarchTransactions.category w = EmptyString).
  { change (resolved Category w = default_of Category).
    rewrite resolved_unfold. apply or_string_default; assumption. }
  rewrite Hcategory. reflexivity.
Qed.

Lemma run_requires_category_witness :
  MonarchTransactions.run w_no_python =
    ([], Throw (ErrorObject MonarchTransactions.no_category None)).
Proof. exact (run_requires_category w_no_python eq_refl eq_refl). Defined.

(** C5: every invocation of the provider-calling script is spawned with
    the 30 second timeout (every other command [run] spawns is a
    [--version] probe), and when the timeout kills the script, which
    [execSync] reports as a failure without exit status, [run] does not
    hang on it: it throws an error. *)
Theorem run_bounds_the_script
    (s : skill) (w : World) (cmd : string) (opts : ExecOptions) :
  In (EvExecSync cmd opts) (trace (run s w)) ->
  cmd <> "python3 --version" ->
  cmd <> "python --version" ->
  (exists python, cmd = command s w python)
  /\ timeout opts = Some 30000
  /\ (forall f : ChildFailure,
        execSync w cmd opts = ExecFail f ->
        status f = None ->
        exists message payload,
          completion (run s w) = Throw (ErrorObject message payload)).
Proof.
  intros Hin Hne3 Hne.
  assert (Hsup : supplied s w = true).
  { revert Hin. rewrite run_invoke. destruct (supplied s w); [reflexivity|intros []]. }
  destruct (run_spawns s w cmd opts Hin)
    as [[[->| ->] _]|[(python & tr & Hfind & ->) ->]];
    [contradiction|contradiction|].
  split; [exists python; reflexivity|]. split; [reflexivity|].
  intros f Hexec _.
  rewrite (run_found s w tr python Hsup Hfind). cbn [completion snd].
  exact (invoke_fail_throws w (script s) _ f Hexec).
Qed.

Lemma run_bounds_the_script_witness :
  timeout script_options = Some 30000
  /\ exists message payload,
       completion (run report w_timeout) = Throw (ErrorObject message payload).
Proof.
  destruct (run_bounds_the_script report w_timeout
              (report_command "50") script_options) as (_ & Hbound & Hthrows).
  - right. left. reflexivity.
  - discriminate.
  - discriminate.
  - split; [exact Hbound|].
    apply (Hthrows {| status := None; signal := Some "SIGTERM";
                      stdout := Some EmptyString; stderr := Some EmptyString |});
      reflexivity.
Defined.

(** C6 (as the code has it): when no Python 3 runtime is available,
    [run] fails before the script is invoked: it throws a plain [Error]
    that has no payload, and so no error code, and its trace holds file
    checks and version probes only, never the script command.  Whenever
    [run] gets as far as Python detection (always for the report; with a
    category for the transaction lookup, which otherwise throws its
    no-category error first), the error is the wrapper's own
    Python-missing error, after the venv checks and the two probes. *)
Theorem run_without_python (s : skill) (w : World) :
  no_python3 s w = true ->
  (exists message : string,
     completion (run s w) = Throw (ErrorObject message None)
     /\ (supplied s w = true -> message = python_missing s))
  /\ Forall is_probe (trace (run s w))
  /\ (forall (python : string) (opts : ExecOptions),
        ~ In (EvExecSync (command s w python) opts) (trace (run s w)))
  /\ (supplied s w = true ->
      run s w =
        ((venv_checks s w ++ [probe_event "python3"; probe_event "python"])%list,
         Throw (ErrorObject (python_missing s) None))).
Proof.
  intros Hno.
  assert (Hprobes : Forall is_probe (trace (run s w))).
  { rewrite run_invoke. destruct (supplied s w); [|apply List.Forall_nil].
    pose proof (findPython_probes s w) as Hfind.
    rewrite (findPython_none s w Hno) in *. exact Hfind. }
  split; [|split; [exact Hprobes|split]].
  - rewrite run_invoke. destruct (supplied s w).
    + rewrite (findPython_none s w Hno).
      exists (python_missing s). split; reflexivity.
    + exists MonarchTransactions.no_category. split; [reflexivity|discriminate].
  - intros python opts Hin.
    pose proof (proj1 (List.Forall_forall _ _) Hprobes _ Hin) as [Hcmd _].
    destruct (command_is_no_probe s w python) as [Hne3 Hne].
    destruct Hcmd; contradiction.
  - intros Hsup. rewrite run_invoke, Hsup, (findPython_none s w Hno). reflexivity.
Qed.

Lemma run_without_python_witness :
  run report w_no_python =
  ([probe_event "python3"; probe_event "python"],
   Throw (ErrorObject MonarchReport.not_available None)).
Proof.
  exact (proj2 (proj2 (proj2 (run_without_python report w_no_python eq_refl))) eq_refl).
Defined.

(** C6, as stated, fails: with no Python 3 available the error [run]
    throws is not classified, it carries no [DEPENDENCY_MISSING] code
    (and no payload at all). *)
Lemma run_without_python_counterexample :
  no_python3 report w_no_python = true
  /\ exists t : Thrown,
       completion (run report w_no_python) = Throw t
       /\ thrown_payload t = None
       /\ error_code t <> Some (JString "DEPENDENCY_MISSING").
Proof.
  split; [reflexivity|].
  exists (ErrorObject MonarchReport.not_available None).
  repeat split; try reflexivity. discriminate.
Qed.

(** C7: for every list of budget categories and every threshold,
    [analyze] keeps exactly the categories whose actual minus planned is
    strictly greater than the threshold: its entries are a rearrangement
    of those categories, so a category is an entry if and only if it was
    given and is over, and no entry has an overage less than or equal to
    the threshold. *)
Theorem analyze_keeps_exactly_the_over_budget
    (categories : list BudgetOverageAnalyzer.BudgetCategory) (t : Z) :
  Permutation
    (BudgetOverageAnalyzer.entries (BudgetOverageAnalyzer.analyze categories t))
    (List.filter (fun c => t <? BudgetOverageAnalyzer.overage c) categories)
  /\ (forall c : BudgetOverageAnalyzer.BudgetCategory,
        In c (BudgetOverageAnalyzer.entries (BudgetOverageAnalyzer.analyze categories t))
        <-> In c categories /\ t < BudgetOverageAnalyzer.overage c)
  /\ Forall (fun c => ~ BudgetOverageAnalyzer.overage c <= t)
            (BudgetOverageAnalyzer.entries (BudgetOverageAnalyzer.analyze categories t)).
Proof.
  assert (Hperm :
    Permutation
      (BudgetOverageAnalyzer.entries (BudgetOverageAnalyzer.analyze categories t))
      (List.filter (BudgetOverageAnalyzer.over t) categories))
    by apply sort_by_overage_perm.
  assert (Hiff : forall c,
    In c (BudgetOverageAnalyzer.entries (BudgetOverageAnalyzer.analyze categories t))
    <-> In c categories /\ t < BudgetOverageAnalyzer.overage c).
  { intros c. split.
    - intros Hin. apply (Permutation_in _ Hperm) in Hin.
      apply filter_In in Hin as [Hin Hover]. split; [exact Hin|].
      apply Z.ltb_lt. exact Hover.
    - intros [Hin Hover]. apply (Permutation_in _ (Permutation_sym Hperm)).
      apply filter_In. split; [exact Hin|]. apply Z.ltb_lt. exact Hover. }
  split; [exact Hperm|]. split; [exact Hiff|].
  apply List.Forall_forall. intros c Hin. apply Hiff in Hin as [_ Hover]. lia.
Qed.

Lemma analyze_keeps_exactly_the_over_budget_witness :
  In BudgetOverageAnalyzer.dining_out
     (BudgetOverageAnalyzer.entries
        (BudgetOverageAnalyzer.analyze
           [BudgetOverageAnalyzer.dining_out; BudgetOverageAnalyzer.rent] 5000))
  /\ ~ In BudgetOverageAnalyzer.rent
          (BudgetOverageAnalyzer.entries
             (BudgetOverageAnalyzer.analyze
                [BudgetOverageAnalyzer.dining_out; BudgetOverageAnalyzer.rent] 5000)).
Proof.
  destruct (analyze_keeps_exactly_the_over_budget
              [BudgetOverageAnalyzer.dining_out; BudgetOverageAnalyzer.rent] 5000)
    as (_ & Hiff & _).
  split.
  - apply Hiff. split; [left; reflexivity|reflexivity].
  - intros Hin. apply Hiff in Hin as [_ Hover]. discriminate Hover.
Defined.

(** C8: when the script exits with status 0 and its stdout does not
    parse as JSON, [run] returns nothing: it throws an error without
    payload whose message names the script and quotes the first 500
    characters of the raw output.  No other error of the wrapper has
    that message: not the one of a failed script, not the one of a
    missing Python, not the one of a missing category. *)
Theorem run_rejects_unparsable_output
    (s : skill) (w : World) (tr : list Event) (python out : string) :
  supplied s w = true ->
  findPython s w = (tr, Return python) ->
  execSync w (command s w python) script_options = ExecOk out ->
  JSON_parse w (trim out) = None ->
  run s w =
    ((tr ++ [EvExecSync (command s w python) script_options])%list,
     Throw (ErrorObject
              ("Failed to parse JSON from " ++ script s ++ "." ++ newline
               ++ "Raw output: " ++ slice0 500 out)
              None))
  /\ (forall err : Thrown,
        parse_failure_message (script s) out <> fallback_message (script s) err)
  /\ parse_failure_message (script s) out <> python_missing s
  /\ parse_failure_message (script s) out <> MonarchTransactions.no_category.
Proof.
  intros Hsup Hfind Hexec Hparse. split.
  - rewrite (run_found s w tr python Hsup Hfind).
    rewrite (invoke_ok w (script s) _ out Hexec), Hparse.
    reflexivity.
  - repeat split; try intros err; destruct s; discriminate.
Qed.

Lemma run_rejects_unparsable_output_witness :
  completion (run report w_garbled) =
  Throw (ErrorObject
           ("Failed to parse JSON from over_budget_report.py." ++ newline
            ++ "Raw output: Fetching budgets..." ++ newline)
           None).
Proof.
  exact (f_equal snd
           (proj1 (run_rejects_unparsable_output report w_garbled
                     [probe_event "python3"] "python3" ("Fetching budgets..." ++ newline)
                     eq_refl eq_refl eq_refl eq_refl))).
Defined.

(** C9: on the success path the wrapper is a pass-through.  When the
    script exits with status 0 and its trimmed stdout parses as JSON,
    [run] returns exactly the parsed value, and has done nothing besides
    the probes and the one invocation. *)
Theorem run_returns_parsed_value
    (s : skill) (w : World) (tr : list Event) (python out : string) (v : value) :
  supplied s w = true ->
  findPython s w = (tr, Return python) ->
  execSync w (command s w python) script_options = ExecOk out ->
  JSON_parse w (trim out) = Some v ->
  run s w = ((tr ++ [EvExecSync (command s w python) script_options])%list, Return v).
Proof.
  intros Hsup Hfind Hexec Hparse.
  rewrite (run_found s w tr python Hsup Hfind).
  rewrite (invoke_ok w (script s) _ out Hexec), Hparse.
  reflexivity.
Qed.

Lemma run_returns_parsed_value_witness :
  run report w_success =
  ([probe_event "python3"; EvExecSync (report_command "50") script_options],
   Return within_budget).
Proof.
  exact (run_returns_parsed_value report w_success [probe_event "python3"]
           "python3" (within_budget_text ++ newline) within_budget
           eq_refl eq_refl eq_refl eq_refl).
Defined.

(** C10: when the script fails with exit status [n] and its stdout is
    empty or is no JSON, the error [run] throws carries no payload, and
    its message holds the exit status and the trimmed stderr text, or
    the note that there was none. *)
Theorem run_failure_without_payload
    (s : skill) (w : World) (tr : list Event) (python : string)
    (f : ChildFailure) (n : Z) :
  supplied s w = true ->
  findPython s w = (tr, Return python) ->
  execSync w (command s w python) script_options = ExecFail f ->
  status f = Some n ->
  trim (default EmptyString (stdout f)) = EmptyString
    \/ JSON_parse w (trim (default EmptyString (stdout f))) = None ->
  run s w =
    ((tr ++ [EvExecSync (command s w python) script_options])%list,
     Throw (ErrorObject
              (script s ++ " failed (exit " ++ string_of_Z n ++ ")." ++ newline
               ++ (if nonempty (trim (default EmptyString (stderr f)))
                   then trim (default EmptyString (stderr f))
                   else "No stderr output."))
              None)).
Proof.
  intros Hsup Hfind Hexec Hstatus Hraw.
  rewrite (run_found s w tr python Hsup Hfind).
  rewrite (invoke_fail w (script s) _ f Hexec).
  assert (Hnone : structured_error w (trim (default EmptyString (stdout f))) = None).
  { unfold structured_error. destruct Hraw as [-> | ->]; [reflexivity|].
    destruct (nonempty _); reflexivity. }
  rewrite Hnone. unfold fallback_message, completion.
  cbn [snd thrown_status_text thrown_stderr or_string]. rewrite Hstatus.
  reflexivity.
Qed.

Lemma run_failure_without_payload_witness :
  completion (run report w_crash) =
  Throw (ErrorObject
           ("over_budget_report.py failed (exit 1)." ++ newline
            ++ "ModuleNotFoundError: No module named 'monarchmoney'")
           None).
Proof.
  exact (f_equal snd
           (run_failure_without_payload report w_crash
              [probe_event "python3"] "python3"
              {| status := Some 1; signal := None; stdout := Some EmptyString;
                 stderr := Some ("ModuleNotFoundError: No module named 'monarchmoney'"
                                 ++ newline) |}
              1 eq_refl eq_refl eq_refl eq_refl (or_introl eq_refl))).
Defined.

(** * Further properties of the wrappers *)

(** ** Every way [run] can go *)

(** The error the inner [try] rethrows is built from the parsed stdout,
    and only when that parsed value is truthy. *)
Lemma structured_error_inv (w : World) (raw : string) (t : Thrown) :
  structured_error w raw = Some t ->
  exists payload message,
    t = ErrorObject message (Some payload)
    /\ JSON_parse w raw = Some payload
    /\ truthy payload = true
    /\ nonempty raw = true.
Proof.
  unfold structured_error.
  destruct (nonempty raw); [|discriminate].
  destruct (JSON_parse w raw) as [payload|]; [|discriminate].
  destruct (get_error payload) as [| |e]; [discriminate| |].
  - destruct (truthy payload) eqn:Htruthy; [|discriminate].
    intros H. injection H as <-. eauto 6.
  - destruct (ToString _ _) as [message|]; [|discriminate].
    destruct (truthy payload) eqn:Htruthy; [|discriminate].
    intros H. injection H as <-. eauto 6.
Qed.

(** The four ways through [run]: no category; no Python; the script ran
    and exited with status 0; the script failed. *)
Lemma run_cases (s : skill) (w : World) :
  (supplied s w = false
   /\ run s w = ([], Throw (ErrorObject MonarchTransactions.no_category None)))
  \/ (supplied s w = true
      /\ exists tr,
           findPython s w = (tr, Throw (ErrorObject (python_missing s) None))
           /\ run s w = (tr, Throw (ErrorObject (python_missing s) None)))
  \/ (supplied s w = true
      /\ exists tr python out,
           findPython s w = (tr, Return python)
           /\ execSync w (command s w python) script_options = ExecOk out
           /\ run s w =
              ((tr ++ [EvExecSync (command s w python) script_options])%list,
               match JSON_parse w (trim out) with
               | Some v => Return v
               | None => Throw (ErrorObject (parse_failure_message (script s) out) None)
               end))
  \/ (supplied s w = true
      /\ exists tr python f,
           findPython s w = (tr, Return python)
           /\ execSync w (command s w python) script_options = ExecFail f
           /\ run s w =
              ((tr ++ [EvExecSync (command s w python) script_options])%list,
               Throw (match structured_error w (trim (default EmptyString (stdout f))) with
                      | Some t => t
                      | None =>
                          ErrorObject (fallback_message (script s) (ChildProcessError f))
                                      None
                      end))).
Proof.
  destruct (supplied s w) eqn:Hsup.
  - right. destruct (findPython s w) as [tr [python|t]] eqn:Hfind.
    + right.
      destruct (execSync w (command s w python) script_options) as [out|f] eqn:Hexec.
      * left. split; [reflexivity|]. exists tr, python, out.
        repeat split; try assumption.
        rewrite (run_found s w tr python Hsup Hfind).
        rewrite (invoke_ok w (script s) _ out Hexec). reflexivity.
      * right. split; [reflexivity|]. exists tr, python, f.
        repeat split; try assumption.
        rewrite (run_found s w tr python Hsup Hfind).
        rewrite (invoke_fail w (script s) _ f Hexec). reflexivity.
    + left. split; [reflexivity|]. exists tr.
      pose proof (findPython_throws s w tr t Hfind) as ->.
      split; [reflexivity|].
      rewrite run_invoke, Hsup, Hfind. reflexivity.
  - left. split; [reflexivity|]. rewrite run_invoke, Hsup. reflexivity.
Qed.

(** [findPython] throws only when there is no Python 3. *)
Lemma findPython_throws_none (s : skill) (w : World) (tr : list Event) (t : Thrown) :
  findPython s w = (tr, Throw t) -> no_python3 s w = true.
Proof.
  unfold no_python3.
  destruct s; cbn [findPython].
  - rewrite report_findPython_spec. unfold system_python.
    destruct (answers_python3 w "python3"); [intros H; inversion H|].
    destruct (answers_python3 w "python"); [intros H; inversion H|].
    reflexivity.
  - rewrite transactions_findPython_spec.
    destruct (existsSync w (venv_bin w)); [intros H; inversion H|].
    destruct (existsSync w (venv_Scripts w)); [intros H; inversion H|].
    unfold system_python.
    destruct (answers_python3 w "python3"); [intros H; inversion H|].
    destruct (answers_python3 w "python"); [intros H; inversion H|].
    reflexivity.
Qed.

(** ** What leaves [run] *)

(** X1: whatever [run] throws is an [Error] object built by the
    wrapper: the [SyntaxError] of [JSON.parse], a [TypeError] and the raw
    error of [execSync] are all caught inside and never reach the
    caller. *)
Theorem run_throws_error_objects (s : skill) (w : World) (t : Thrown) :
  completion (run s w) = Throw t ->
  exists message payload, t = ErrorObject message payload.
Proof.
  destruct (run_cases s w)
    as [[_ ->]|[(_ & tr & _ & ->)|[(_ & tr & python & out & _ & _ & ->)
                                  |(_ & tr & python & f & _ & _ & ->)]]];
    cbn [completion snd]; intros H.
  - injection H as <-. eauto.
  - injection H as <-. eauto.
  - destruct (JSON_parse w (trim out)); [discriminate|].
    injection H as <-. eauto.
  - destruct (structured_error w _) as [t'|] eqn:Hstructured.
    + apply structured_error_inv in Hstructured as (payload & message & -> & _).
      injection H as <-. eauto.
    + injection H as <-. eauto.
Qed.

Lemma run_throws_error_objects_witness :
  completion (run report w_null)
  = Throw (ErrorObject (fallback_message "over_budget_report.py"
                          (ChildProcessError
                             {| status := Some 1; signal := None;
                                stdout := Some ("null" ++ newline);
                                stderr := Some "Traceback (most recent call last):" |}))
                       None)
  /\ exists message payload,
       ErrorObject (fallback_message "over_budget_report.py"
                      (ChildProcessError
                         {| status := Some 1; signal := None;
                            stdout := Some ("null" ++ newline);
                            stderr := Some "Traceback (most recent call last):" |}))
                   None
       = ErrorObject message payload.
Proof.
  split; [reflexivity|].
  exact (run_throws_error_objects report w_null _ eq_refl).
Defined.

(** X2: a payload on the error [run] throws always comes from the
    script: Python was found, the script was spawned and failed, and the
    payload is what [JSON.parse] made of its trimmed stdout, a truthy
    value.  The wrapper never makes up a payload of its own. *)
Theorem payload_comes_from_the_script
    (s : skill) (w : World) (message : string) (payload : value) :
  completion (run s w) = Throw (ErrorObject message (Some payload)) ->
  exists tr python f,
    findPython s w = (tr, Return python)
    /\ execSync w (command s w python) script_options = ExecFail f
    /\ JSON_parse w (trim (default EmptyString (stdout f))) = Some payload
    /\ truthy payload = true.
Proof.
  destruct (run_cases s w)
    as [[_ ->]|[(_ & tr & _ & ->)|[(_ & tr & python & out & _ & _ & ->)
                                  |(_ & tr & python & f & Hfind & Hexec & ->)]]];
    cbn [completion snd]; intros H.
  - discriminate.
  - discriminate.
  - destruct (JSON_parse w (trim out)); discriminate.
  - destruct (structured_error w _) as [t'|] eqn:Hstructured; [|discriminate].
    apply structured_error_inv in Hstructured as (p & m & -> & Hparse & Htruthy & _).
    injection H as _ <-. eauto 8.
Qed.

Lemma payload_comes_from_the_script_witness :
  exists tr python f,
    findPython report w_expired = (tr, Return python)
    /\ execSync w_expired (command report w_expired python) script_options = ExecFail f
    /\ JSON_parse w_expired (trim (default EmptyString (stdout f)))
       = Some (JObject expired)
    /\ truthy (JObject expired) = true.
Proof.
  exact (payload_comes_from_the_script report w_expired
           "Session appears to be expired" (JObject expired) eq_refl).
Defined.

(** X3: what [run] returns always comes from the script: Python was
    found, the script was spawned and exited with status 0, and the
    value is what [JSON.parse] made of its trimmed stdout.  No failure
    is ever turned into a result. *)
Theorem result_comes_from_the_script (s : skill) (w : World) (v : value) :
  completion (run s w) = Return v ->
  exists tr python out,
    findPython s w = (tr, Return python)
    /\ execSync w (command s w python) script_options = ExecOk out
    /\ JSON_parse w (trim out) = Some v.
Proof.
  destruct (run_cases s w)
    as [[_ ->]|[(_ & tr & _ & ->)|[(_ & tr & python & out & Hfind & Hexec & ->)
                                  |(_ & tr & python & f & _ & _ & ->)]]];
    cbn [completion snd]; intros H; try discriminate.
  destruct (JSON_parse w (trim out)) as [v'|] eqn:Hparse; [|discriminate].
  injection H as <-. eauto 6.
Qed.

Lemma result_comes_from_the_script_witness :
  exists tr python out,
    findPython transactions w_venv = (tr, Return python)
    /\ execSync w_venv (command transactions w_venv python) script_options = ExecOk out
    /\ JSON_parse w_venv (trim out) = Some no_transactions.
Proof.
  exact (result_comes_from_the_script transactions w_venv no_transactions eq_refl).
Defined.

(** X4: when the script fails and its trimmed stdout is JSON but no
    object (a primitive or an array), the error carries that value as
    its payload, under the default message, exactly when the value is
    truthy; on [null], [false], [0] and the empty string the stdout is
    dropped and [run] reports the exit status and stderr. *)
Theorem run_failure_with_bare_value
    (s : skill) (w : World) (tr : list Event) (python : string)
    (f : ChildFailure) (v : value) :
  supplied s w = true ->
  findPython s w = (tr, Return python) ->
  execSync w (command s w python) script_options = ExecFail f ->
  JSON_parse w EmptyString = None ->
  JSON_parse w (trim (default EmptyString (stdout f))) = Some v ->
  not_an_object v = true ->
  run s w =
    ((tr ++ [EvExecSync (command s w python) script_options])%list,
     Throw (if truthy v
            then ErrorObject default_message (Some v)
            else ErrorObject (fallback_message (script s) (ChildProcessError f)) None)).
Proof.
  intros Hsup Hfind Hexec Hempty Hparse Hbare.
  rewrite (run_found s w tr python Hsup Hfind).
  rewrite (invoke_fail w (script s) _ f Hexec).
  unfold structured_error.
  destruct (trim (default EmptyString (stdout f))) as [|c raw] eqn:Hraw.
  { rewrite Hempty in Hparse. discriminate. }
  cbn [nonempty]. rewrite Hparse.
  destruct v as [|b|n|text|items|members]; try discriminate Hbare;
    cbn [get_error]; try reflexivity;
    destruct (truthy _); reflexivity.
Qed.

Lemma run_failure_with_bare_value_witness :
  completion (run report w_plain_text) =
  Throw (ErrorObject "Script exited with non-zero status"
                     (Some (JString "quota exceeded"))).
Proof.
  exact (f_equal snd
           (run_failure_with_bare_value report w_plain_text
              [probe_event "python3"] "python3"
              {| status := Some 1; signal := None;
                 stdout := Some (quoted "quota exceeded" ++ newline);
                 stderr := Some EmptyString |}
              (JString "quota exceeded")
              eq_refl eq_refl eq_refl eq_refl eq_refl eq_refl)).
Defined.

(** X5: when the script fails after writing a JSON object whose
    [error] member is truthy and has no string conversion, building the
    error fails inside the inner [try]; the payload is lost, and [run]
    falls back on the exit status and stderr. *)
Theorem run_failure_with_unprintable_error
    (s : skill) (w : World) (tr : list Event) (python : string)
    (f : ChildFailure) (members : list (string * value)) :
  supplied s w = true ->
  findPython s w = (tr, Return python) ->
  execSync w (command s w python) script_options = ExecFail f ->
  JSON_parse w (trim (default EmptyString (stdout f))) = Some (JObject members) ->
  structured_message w members = None ->
  run s w =
    ((tr ++ [EvExecSync (command s w python) script_options])%list,
     Throw (ErrorObject (fallback_message (script s) (ChildProcessError f)) None)).
Proof.
  intros Hsup Hfind Hexec Hparse Hmsg.
  rewrite (run_found s w tr python Hsup Hfind).
  rewrite (invoke_fail w (script s) _ f Hexec).
  unfold structured_error. rewrite Hparse.
  destruct (nonempty _); [|reflexivity].
  cbn [get_error]. unfold structured_message in Hmsg.
  destruct (member "error" members) as [e|]; [|discriminate].
  destruct (truthy e); [|discriminate].
  rewrite Hmsg. reflexivity.
Qed.

Lemma run_failure_with_unprintable_error_witness :
  completion (run report w_shadowed) =
  Throw (ErrorObject
           ("over_budget_report.py failed (exit 1)." ++ newline ++ "No stderr output.")
           None).
Proof.
  exact (f_equal snd
           (run_failure_with_unprintable_error report w_shadowed
              [probe_event "python3"] "python3"
              {| status := Some 1; signal := None;
                 stdout := Some shadowed_text; stderr := Some EmptyString |}
              [("error", JObject [("toString", JNumber (NFinite 1 0))])]
              eq_refl eq_refl eq_refl eq_refl eq_refl)).
Defined.

(** ** Which error, and why *)

(** X6: [run] throws the Python-missing error exactly when the
    parameters it wants are supplied and no Python 3 is available: the
    error is never raised while an interpreter could have been used, and
    no other failure has its message. *)
Theorem python_missing_error_iff (s : skill) (w : World) :
  completion (run s w) = Throw (ErrorObject (python_missing s) None)
  <-> supplied s w = true /\ no_python3 s w = true.
Proof.
  split.
  - destruct (run_cases s w)
      as [[Hsup ->]|[(Hsup & tr & Hfind & ->)
                    |[(_ & tr & python & out & _ & _ & ->)
                     |(_ & tr & python & f & _ & _ & ->)]]];
      cbn [completion snd]; intros H.
    + destruct s; [discriminate Hsup|discriminate H].
    + split; [exact Hsup|]. exact (findPython_throws_none s w tr _ Hfind).
    + destruct (JSON_parse w (trim out)); [discriminate|].
      destruct s; discriminate H.
    + destruct (structured_error w _) as [t'|] eqn:Hstructured.
      * apply structured_error_inv in Hstructured as (p & m & -> & _).
        discriminate H.
      * destruct s; discriminate H.
  - intros [Hsup Hno].
    rewrite run_invoke, Hsup, (findPython_none s w Hno). reflexivity.
Qed.

(** X7: the transaction lookup throws the no-category error exactly
    when the resolved category is empty; with a category, every failure
    is another error. *)
Theorem no_category_error_iff (w : World) :
  completion (MonarchTransactions.run w)
    = Throw (ErrorObject MonarchTransactions.no_category None)
  <-> MonarchTransactions.category w = EmptyString.
Proof.
  change (MonarchTransactions.run w) with (run transactions w).
  split.
  - destruct (run_cases transactions w)
      as [[Hsup _]|[(_ & tr & _ & ->)
                   |[(_ & tr & python & out & _ & _ & ->)
                    |(_ & tr & python & f & _ & _ & ->)]]];
      cbn [completion snd]; intros H.
    + cbn [supplied] in Hsup.
      destruct (MonarchTransactions.category w); [reflexivity|discriminate Hsup].
    + discriminate H.
    + destruct (JSON_parse w (trim out)); discriminate H.
    + destruct (structured_error w _) as [t'|] eqn:Hstructured.
      * apply structured_error_inv in Hstructured as (p & m & -> & _).
        discriminate H.
      * discriminate H.
  - intros Hcategory. cbn [run]. rewrite transactions_run_invoke, Hcategory.
    reflexivity.
Qed.

(** X8: when the script is killed (no exit status, as on the 30 second
    timeout) and left no JSON on stdout, the error is the generic
    failure message with [exit null]: nothing in it says that the script
    timed out. *)
Theorem run_reports_kill_as_exit_null
    (s : skill) (w : World) (tr : list Event) (python : string) (f : ChildFailure) :
  supplied s w = true ->
  findPython s w = (tr, Return python) ->
  execSync w (command s w python) script_options = ExecFail f ->
  status f = None ->
  trim (default EmptyString (stdout f)) = EmptyString
    \/ JSON_parse w (trim (default EmptyString (stdout f))) = None ->
  completion (run s w) =
    Throw (ErrorObject
             (script s ++ " failed (exit null)." ++ newline
              ++ (if nonempty (trim (default EmptyString (stderr f)))
                  then trim (default EmptyString (stderr f))
                  else "No stderr output."))
             None).
Proof.
  intros Hsup Hfind Hexec Hstatus Hraw.
  rewrite (run_found s w tr python Hsup Hfind).
  rewrite (invoke_fail w (script s) _ f Hexec).
  assert (Hnone : structured_error w (trim (default EmptyString (stdout f))) = None).
  { unfold structured_error. destruct Hraw as [-> | ->]; [reflexivity|].
    destruct (nonempty _); reflexivity. }
  rewrite Hnone. unfold fallback_message, completion.
  cbn [snd thrown_status_text thrown_stderr or_string]. rewrite Hstatus.
  reflexivity.
Qed.

Lemma run_reports_kill_as_exit_null_witness :
  completion (run report w_timeout) =
  Throw (ErrorObject
           ("over_budget_report.py failed (exit null)." ++ newline
            ++ "No stderr output.")
           None).
Proof.
  exact (run_reports_kill_as_exit_null report w_timeout
           [probe_event "python3"] "python3"
           {| status := None; signal := Some "SIGTERM";
              stdout := Some EmptyString; stderr := Some EmptyString |}
           eq_refl eq_refl eq_refl eq_refl (or_introl eq_refl)).
Defined.

(** The first [n] code units of a string: a prefix, of length [n] or
    the whole string. *)
Lemma slice0_prefix (n : nat) (s : string) :
  String.prefix (slice0 n s) s = true
  /\ String.length (slice0 n s) = Nat.min n (String.length s).
Proof.
  unfold slice0. revert s.
  induction n as [|n IH]; intros [|c s]; cbn; try (split; reflexivity).
  destruct (IH s) as [Hprefix Hlength].
  rewrite Hprefix, Hlength.
  destruct (Ascii.ascii_dec c c) as [_|Hne]; [split; reflexivity|].
  exfalso. apply Hne. reflexivity.
Qed.

(** X9: the parse-failure error quotes the raw output from its start
    and never more than 500 code units of it, however much the script
    printed; a shorter output is quoted whole. *)
Theorem parse_failure_quotes_a_bounded_prefix
    (s : skill) (w : World) (tr : list Event) (python out : string) :
  supplied s w = true ->
  findPython s w = (tr, Return python) ->
  execSync w (command s w python) script_options = ExecOk out ->
  JSON_parse w (trim out) = None ->
  exists excerpt : string,
    completion (run s w) =
      Throw (ErrorObject
               ("Failed to parse JSON from " ++ script s ++ "." ++ newline
                ++ "Raw output: " ++ excerpt)
               None)
    /\ String.prefix excerpt out = true
    /\ String.length excerpt = Nat.min 500 (String.length out).
Proof.
  intros Hsup Hfind Hexec Hparse.
  exists (slice0 500 out). split; [|apply slice0_prefix].
  rewrite (run_found s w tr python Hsup Hfind).
  rewrite (invoke_ok w (script s) _ out Hexec), Hparse.
  reflexivity.
Qed.

Lemma parse_failure_quotes_a_bounded_prefix_witness :
  exists excerpt : string,
    completion (run report w_garbled) =
      Throw (ErrorObject
               ("Failed to parse JSON from over_budget_report.py." ++ newline
                ++ "Raw output: " ++ excerpt)
               None)
    /\ String.prefix excerpt ("Fetching budgets..." ++ newline) = true
    /\ String.length excerpt
       = Nat.min 500 (String.length ("Fetching budgets..." ++ newline)).
Proof.
  exact (parse_failure_quotes_a_bounded_prefix report w_garbled
           [probe_event "python3"] "python3" ("Fetching budgets..." ++ newline)
           eq_refl eq_refl eq_refl eq_refl).
Defined.

(** ** Python detection *)

(** X10: an interpreter [findPython] returns has passed its check:
    it is [python3] or [python] and its [--version] output named a
    Python 3, or it is one of the two venv paths of the transaction
    lookup and the file exists. *)
Theorem findPython_returns_a_checked_interpreter
    (s : skill) (w : World) (tr : list Event) (python : string) :
  findPython s w = (tr, Return python) ->
  ((python = "python3" \/ python = "python") /\ answers_python3 w python = true)
  \/ (s = transactions
      /\ (python = venv_bin w \/ python = venv_Scripts w)
      /\ existsSync w python = true).
Proof.
  assert (Hsystem : forall missing tr',
    system_python w missing = (tr', Return python) ->
    (python = "python3" \/ python = "python") /\ answers_python3 w python = true).
  { intros missing tr'. unfold system_python.
    destruct (answers_python3 w "python3") eqn:H3;
      [|destruct (answers_python3 w "python") eqn:H2];
      intros H; inversion H; subst; auto. }
  destruct s; cbn [findPython].
  - rewrite report_findPython_spec. intros H. left. exact (Hsystem _ _ H).
  - rewrite transactions_findPython_spec.
    destruct (existsSync w (venv_bin w)) eqn:Hbin.
    { intros H. inversion H; subst. right. auto. }
    destruct (existsSync w (venv_Scripts w)) eqn:Hscripts.
    { intros H. inversion H; subst. right. auto. }
    intros H. left.
    destruct (system_python w MonarchTransactions.not_found) as [tr' c] eqn:Hsys.
    cbn [trace completion fst snd] in H. inversion H; subst.
    exact (Hsystem _ _ Hsys).
Qed.

Lemma findPython_returns_a_checked_interpreter_witness :
  (venv_python = "python3" \/ venv_python = "python")
  /\ answers_python3 w_venv venv_python = true
  \/ transactions = transactions
     /\ (venv_python = venv_bin w_venv \/ venv_python = venv_Scripts w_venv)
     /\ existsSync w_venv venv_python = true.
Proof.
  exact (findPython_returns_a_checked_interpreter transactions w_venv
           [EvExistsSync venv_python] venv_python eq_refl).
Defined.

(** X11: the transaction lookup takes the project venv on the mere
    existence of the file: it runs the script with the first of
    [.venv/bin/python] and [.venv/Scripts/python] that exists, spawns no
    [--version] probe for it, and does not look at the system Python. *)
Theorem venv_python_is_not_probed (w : World) :
  supplied transactions w = true ->
  (existsSync w (venv_bin w) = true ->
   trace (MonarchTransactions.run w) =
   [EvExistsSync (venv_bin w);
    EvExecSync (MonarchTransactions.command w (venv_bin w)) script_options])
  /\ (existsSync w (venv_bin w) = false ->
      existsSync w (venv_Scripts w) = true ->
      trace (MonarchTransactions.run w) =
      [EvExistsSync (venv_bin w); EvExistsSync (venv_Scripts w);
       EvExecSync (MonarchTransactions.command w (venv_Scripts w)) script_options]).
Proof.
  intros Hsup. change (MonarchTransactions.run w) with (run transactions w).
  split.
  - intros Hbin.
    rewrite (run_found transactions w [EvExistsSync (venv_bin w)] (venv_bin w) Hsup).
    + reflexivity.
    + cbn [findPython]. rewrite transactions_findPython_spec, Hbin. reflexivity.
  - intros Hbin Hscripts.
    rewrite (run_found transactions w
               [EvExistsSync (venv_bin w); EvExistsSync (venv_Scripts w)]
               (venv_Scripts w) Hsup).
    + reflexivity.
    + cbn [findPython]. rewrite transactions_findPython_spec, Hbin, Hscripts.
      reflexivity.
Qed.

Lemma venv_python_is_not_probed_witness :
  trace (MonarchTransactions.run w_venv) =
  [EvExistsSync venv_python;
   EvExecSync (transactions_command venv_python "Dining Out") script_options].
Proof.
  exact (proj1 (venv_python_is_not_probed w_venv eq_refl) eq_refl).
Defined.

(** X12: among the system interpreters [python3] comes first: when it
    answers as a Python 3, [python] is never probed; [python] is taken
    only after [python3] has failed its probe. *)
Theorem system_python3_is_preferred (s : skill) (w : World) :
  venv_checks s w = [] \/
  (existsSync w (venv_bin w) = false /\ existsSync w (venv_Scripts w) = false) ->
  (answers_python3 w "python3" = true ->
   findPython s w =
   ((venv_checks s w ++ [probe_event "python3"])%list, Return "python3"))
  /\ (answers_python3 w "python3" = false ->
      answers_python3 w "python" = true ->
      findPython s w =
      ((venv_checks s w ++ [probe_event "python3"; probe_event "python"])%list,
       Return "python")).
Proof.
  intros Hvenv.
  assert (Hfind : findPython s w =
                  ((venv_checks s w ++ trace (system_python w (python_missing s)))%list,
                   completion (system_python w (python_missing s)))).
  { destruct s; cbn [findPython venv_checks python_missing].
    - rewrite report_findPython_spec. destruct (system_python w _); reflexivity.
    - destruct Hvenv as [Hnil|[Hbin Hscripts]]; [discriminate Hnil|].
      rewrite transactions_findPython_spec, Hbin, Hscripts. reflexivity. }
  rewrite Hfind. unfold system_python. split.
  - intros ->. reflexivity.
  - intros -> ->. reflexivity.
Qed.

Lemma system_python3_is_preferred_witness :
  findPython report w_success = ([probe_event "python3"], Return "python3").
Proof.
  exact (proj1 (system_python3_is_preferred report w_success (or_introl eq_refl))
           eq_refl).
Defined.

(** ** What [run] does, and what it never does *)

Lemma findPython_trace_length (s : skill) (w : World) :
  (List.length (trace (findPython s w)) <= 4)%nat.
Proof.
  assert (Hsystem : forall missing,
    (List.length (trace (system_python w missing)) <= 2)%nat).
  { intros missing. unfold system_python.
    destruct (answers_python3 w "python3"); [|destruct (answers_python3 w "python")];
      cbn; lia. }
  destruct s; cbn [findPython].
  - rewrite report_findPython_spec. specialize (Hsystem MonarchReport.not_available). lia.
  - rewrite transactions_findPython_spec.
    destruct (existsSync w (venv_bin w)); [cbn; lia|].
    destruct (existsSync w (venv_Scripts w)); [cbn; lia|].
    cbn [trace fst]. rewrite List.length_app.
    specialize (Hsystem MonarchTransactions.not_found). cbn [List.length]. lia.
Qed.

(** X13: a run is a bounded sequence of effects: first the file checks
    and version probes of the Python detection, at most four, then at
    most one invocation of the script, as the last effect.  The script is
    never spawned twice: the wrapper does not retry. *)
Theorem run_invokes_the_script_at_most_once (s : skill) (w : World) :
  exists detection invocation : list Event,
    trace (run s w) = (detection ++ invocation)%list
    /\ Forall is_probe detection
    /\ (List.length detection <= 4)%nat
    /\ (invocation = []
        \/ exists python,
             invocation = [EvExecSync (command s w python) script_options]).
Proof.
  pose proof (findPython_probes s w) as Hprobes.
  pose proof (findPython_trace_length s w) as Hlength.
  destruct (run_cases s w)
    as [[_ ->]|[(_ & tr & Hfind & ->)|[(_ & tr & python & out & Hfind & _ & ->)
                                      |(_ & tr & python & f & Hfind & _ & ->)]]];
    rewrite ?Hfind in Hprobes, Hlength; cbn [trace fst] in *.
  - exists [], []. repeat split; [constructor|cbn; lia|left; reflexivity].
  - exists tr, []. rewrite app_nil_r.
    repeat split; [exact Hprobes|exact Hlength|left; reflexivity].
  - exists tr, [EvExecSync (command s w python) script_options].
    repeat split; [exact Hprobes|exact Hlength|right; exists python; reflexivity].
  - exists tr, [EvExecSync (command s w python) script_options].
    repeat split; [exact Hprobes|exact Hlength|right; exists python; reflexivity].
Qed.

(** X14: the report wrapper never looks at the file system: every
    effect of its [run] is a spawned command.  Unlike the transaction
    lookup it does not check for the project venv, and runs the script
    with the system Python only. *)
Theorem report_never_checks_files (w : World) :
  Forall is_spawn (trace (MonarchReport.run w)).
Proof.
  assert (Hsystem : Forall is_spawn (trace (MonarchReport.findPython w))).
  { rewrite report_findPython_spec. unfold system_python.
    destruct (answers_python3 w "python3"); [|destruct (answers_python3 w "python")];
      cbn [trace fst]; repeat (apply List.Forall_cons; [exact I|]);
      apply List.Forall_nil. }
  change (MonarchReport.run w) with (run report w).
  change (MonarchReport.findPython w) with (findPython report w) in Hsystem.
  destruct (run_cases report w)
    as [[_ ->]|[(_ & tr & Hfind & ->)|[(_ & tr & python & out & Hfind & _ & ->)
                                      |(_ & tr & python & f & Hfind & _ & ->)]]];
    rewrite ?Hfind in Hsystem; cbn [trace fst] in *.
  - apply List.Forall_nil.
  - exact Hsystem.
  - apply Forall_app. split; [exact Hsystem|].
    apply List.Forall_cons; [exact I|apply List.Forall_nil].
  - apply Forall_app. split; [exact Hsystem|].
    apply List.Forall_cons; [exact I|apply List.Forall_nil].
Qed.

(** X15: the [--version] probes are spawned without any timeout; only
    the invocation of the script is bounded. *)
Theorem probes_have_no_timeout
    (s : skill) (w : World) (cmd : string) (opts : ExecOptions) :
  In (EvExecSync cmd opts) (trace (run s w)) ->
  cmd = "python3 --version" \/ cmd = "python --version" ->
  timeout opts = None.
Proof.
  intros Hin Hprobe.
  destruct (run_spawns s w cmd opts Hin)
    as [[_ ->]|[(python & tr & _ & ->) _]]; [reflexivity|].
  destruct (command_is_no_probe s w python) as [Hne3 Hne].
  destruct Hprobe; contradiction.
Qed.

Lemma probes_have_no_timeout_witness :
  In (probe_event "python3") (trace (run report w_success))
  /\ timeout probe_options = None.
Proof.
  split; [left; reflexivity|].
  exact (probes_have_no_timeout report w_success "python3 --version" probe_options
           (or_introl eq_refl) (or_introl eq_refl)).
Defined.

(** ** Direct invocation *)

(** X16: run as the main module, the wrapper exits with status 0
    exactly when [run] returns, having printed the result on stdout and
    nothing else.  When [run] throws, it exits with status 1 and writes
    to stderr only: the line [Skill error:] with the message of the
    wrapper's own error (never a message of the runtime), and a
    [Payload:] line exactly when the error carries a truthy payload. *)
Theorem main_exit_status
    (JSON_stringify : value -> string) (native_message : Thrown -> string)
    (s : skill) (w : World) :
  (exists v : value,
     completion (run s w) = Return v
     /\ main JSON_stringify native_message s w =
        (trace (run s w),
         {| written := [ConsoleLog (JSON_stringify v)]; exit_status := 0 |}))
  \/ (exists (message : string) (payload : option value),
        completion (run s w) = Throw (ErrorObject message payload)
        /\ main JSON_stringify native_message s w =
           (trace (run s w),
            {| written :=
                 ConsoleError ("Skill error: " ++ message)
                 :: match payload with
                    | Some p =>
                        if truthy p
                        then [ConsoleError ("Payload: " ++ JSON_stringify p)]
                        else []
                    | None => []
                    end;
               exit_status := 1 |})
        /\ forallb (fun o => negb (to_stdout o))
                   (written (snd (main JSON_stringify native_message s w))) = true).
Proof.
  unfold main.
  destruct (run s w) as [tr [v|t]] eqn:Hrun.
  - left. exists v. split; reflexivity.
  - right.
    assert (Hthrown : completion (run s w) = Throw t) by (rewrite Hrun; reflexivity).
    destruct (run_cases s w)
      as [[_ Hcase]|[(_ & tr' & _ & Hcase)
                    |[(_ & tr' & python & out & _ & _ & Hcase)
                     |(_ & tr' & python & f & _ & _ & Hcase)]]];
      rewrite Hcase in Hthrown; cbn [completion snd] in Hthrown.
    + injection Hthrown as <-. eexists _, _. repeat split.
    + injection Hthrown as <-. eexists _, _. repeat split.
    + destruct (JSON_parse w (trim out)); [discriminate|].
      injection Hthrown as <-. eexists _, _. repeat split.
    + destruct (structured_error w _) as [t'|] eqn:Hstructured.
      * apply structured_error_inv in Hstructured as (p & m & -> & _ & Htruthy & _).
        injection Hthrown as <-. exists m, (Some p).
        cbn [thrown_message thrown_payload console_error snd written].
        rewrite Htruthy. repeat split.
      * injection Hthrown as <-. eexists _, _. repeat split.
Qed.
